(** * Endpoint invocation and response normalisation
    (packages/astro/src/core/endpoint/index.ts)

    A shallow embedding of [createAPIContext], [ResponseWithEncoding] and
    [callEndpoint].  JavaScript objects that the code mutates or returns by
    reference (responses, the request's symbol-keyed slots, the cookie jar)
    live in an explicit [World]; every effectful operation threads it.

    Platform objects ([Response], [Headers], [TextEncoder], [Buffer]) are
    modelled after the Fetch, Encoding and Node documents: the [Response]
    constructor converts and checks its status, validates and normalises
    the headers of its init and gives a string body a content type; the
    URL parser is a parameter. *)

From Stdlib.Strings Require Byte.
From Stdlib Require Import Ascii String NArith DecimalString.
From stdpp Require Import gmap strings list.


(** ** JavaScript values and truthiness *)

Abbreviation loc := nat.

(** The values a handler can hand to an untyped parameter.  A number is
    kept as its IEEE-754 binary64 bit pattern; nothing below computes
    with it. *)
Inductive JsValue :=
| JsUndefined
| JsNull
| JsBoolean (b : bool)
| JsNumber (bits : N)
| JsBigInt (z : Z)
| JsString (s : string)
| JsSymbol (description : string)
| JsObject (ref : loc)
| JsFunction (ref : loc).

(** The [typeof] operator (ECMA-262, table of typeof results). *)
Definition typeof (v : JsValue) : string :=
  match v with
  | JsUndefined => "undefined"
  | JsNull => "object"
  | JsBoolean _ => "boolean"
  | JsNumber _ => "number"
  | JsBigInt _ => "bigint"
  | JsString _ => "string"
  | JsSymbol _ => "symbol"
  | JsObject _ => "object"
  | JsFunction _ => "function"
  end.

(** Membership in the language type Object (ECMA-262 6.1.7): ordinary
    objects, arrays and functions; [null] belongs to the type Null. *)
Definition is_Object (v : JsValue) : bool :=
  match v with
  | JsObject _ | JsFunction _ => true
  | _ => false
  end.

(** Truthiness of the operand shapes the module tests with [if], [||]
    and [&&]. *)
Definition truthy_string (s : string) : bool :=
  match s with
  | EmptyString => false
  | String _ _ => true
  end.

Definition truthy_opt_string (o : option string) : bool :=
  match o with
  | Some s => truthy_string s
  | None => false
  end.

Definition truthy_number (n : Z) : bool := negb (n =? 0)%Z.

(** [a || b] on an optional integer and on an optional string. *)
Definition or_number (a : option Z) (b : Z) : Z :=
  match a with
  | Some n => if truthy_number n then n else b
  | None => b
  end.

Definition or_string (a : option string) (b : string) : string :=
  match a with
  | Some s => if truthy_string s then s else b
  | None => b
  end.

(** ** Strings, bytes and the UTF-8 encoder *)

(** A JavaScript string value is a sequence of UTF-16 code units.  Bodies
    are kept in that form because the code encodes them; header text,
    route identifiers and messages are kept as [string]. *)
Definition CodeUnits := list N.

Definition code_units_of (s : string) : CodeUnits :=
  (λ c, N_of_ascii c) <$> list_ascii_of_string s.

(** The conversion of a string to a [ByteString] (Web IDL): every code
    unit must be at most 255. *)
Fixpoint to_ByteString (s : CodeUnits) : option string :=
  match s with
  | [] => Some EmptyString
  | c :: rest =>
      if (c <=? 255)%N then String (ascii_of_N c) <$> to_ByteString rest
      else None
  end.

Definition byte_of_N (n : N) : Byte.byte :=
  match Byte.of_N (n mod 256) with
  | Some b => b
  | None => Byte.x00
  end.

Definition is_high_surrogate (c : N) : bool := ((0xD800 <=? c) && (c <=? 0xDBFF))%N.
Definition is_low_surrogate (c : N) : bool := ((0xDC00 <=? c) && (c <=? 0xDFFF))%N.

(** UTF-8 bytes of one scalar value. *)
Definition utf8_of_code_point (cp : N) : list Byte.byte :=
  if (cp <? 0x80)%N then [byte_of_N cp]
  else if (cp <? 0x800)%N then
    [byte_of_N (N.lor 0xC0 (N.shiftr cp 6));
     byte_of_N (N.lor 0x80 (N.land cp 0x3F))]
  else if (cp <? 0x10000)%N then
    [byte_of_N (N.lor 0xE0 (N.shiftr cp 12));
     byte_of_N (N.lor 0x80 (N.land (N.shiftr cp 6) 0x3F));
     byte_of_N (N.lor 0x80 (N.land cp 0x3F))]
  else
    [byte_of_N (N.lor 0xF0 (N.shiftr cp 18));
     byte_of_N (N.lor 0x80 (N.land (N.shiftr cp 12) 0x3F));
     byte_of_N (N.lor 0x80 (N.land (N.shiftr cp 6) 0x3F));
     byte_of_N (N.lor 0x80 (N.land cp 0x3F))].

Definition replacement_character : N := 0xFFFD%N.

(** [TextEncoder.prototype.encode]: the string is read as scalar values
    (a surrogate pair is one supplementary code point, an unpaired
    surrogate becomes U+FFFD) and each is written in UTF-8. *)
Fixpoint utf8_encode (s : CodeUnits) : list Byte.byte :=
  match s with
  | [] => []
  | c :: rest =>
      if is_high_surrogate c then
        match rest with
        | d :: rest' =>
            if is_low_surrogate d then
              utf8_of_code_point
                (0x10000 + (c - 0xD800) * 0x400 + (d - 0xDC00))%N
                ++ utf8_encode rest'
            else utf8_of_code_point replacement_character ++ utf8_encode rest
        | [] => utf8_of_code_point replacement_character
        end
      else if is_low_surrogate c then
        utf8_of_code_point replacement_character ++ utf8_encode rest
      else utf8_of_code_point c ++ utf8_encode rest
  end.

(** [Number.prototype.toString] on a byte length. *)
Definition toString (n : nat) : string :=
  NilZero.string_of_uint (Nat.to_uint n).

(** Node's [BufferEncoding] union. *)
Inductive BufferEncoding :=
| ascii_enc | utf8 | utf_8 | utf16le | ucs2 | ucs_2
| base64 | base64url | latin1 | binary | hex.

Definition encoding_name (e : BufferEncoding) : string :=
  match e with
  | ascii_enc => "ascii"
  | utf8 => "utf8"
  | utf_8 => "utf-8"
  | utf16le => "utf16le"
  | ucs2 => "ucs2"
  | ucs_2 => "ucs-2"
  | base64 => "base64"
  | base64url => "base64url"
  | latin1 => "latin1"
  | binary => "binary"
  | hex => "hex"
  end.

(** ** Errors *)

Inductive AstroErrorName :=
| ClientAddressNotAvailable
| StaticClientAddressNotAvailable
| LocalsNotAnObject.

Inductive JsError :=
| AstroError (name : AstroErrorName) (message : string)
| TypeError (message : string)
| RangeError (message : string)
| Thrown (v : JsValue).

(** ** Headers *)

Definition ascii_to_lower (c : ascii) : ascii :=
  let n := nat_of_ascii c in
  if (65 <=? n)%nat && (n <=? 90)%nat then ascii_of_nat (n + 32) else c.

Fixpoint to_lower (s : string) : string :=
  match s with
  | EmptyString => EmptyString
  | String c s' => String (ascii_to_lower c) (to_lower s')
  end.

(** A header list in insertion order; names are stored lower-cased. *)
Definition Headers := list (string * string).

Definition Headers_new : Headers := [].

(** Appending to a header list (Fetch, header list "append"). *)
Definition header_list_append (name value : string) (h : Headers) : Headers :=
  h ++ [(to_lower name, value)].

Definition name_is (name : string) (e : string * string) : bool :=
  bool_decide (e.1 = to_lower name).

Definition Headers_values (name : string) (h : Headers) : list string :=
  snd <$> List.filter (name_is name) h.

Definition Headers_has (name : string) (h : Headers) : bool :=
  existsb (name_is name) h.

Fixpoint join_values (vs : list string) : string :=
  match vs with
  | [] => ""
  | [v] => v
  | v :: rest => v +:+ ", " +:+ join_values rest
  end.

(** [Headers.prototype.get]: [null] when the name is absent, otherwise
    the values joined with a comma and a space. *)
Definition Headers_get (name : string) (h : Headers) : option string :=
  match Headers_values name h with
  | [] => None
  | vs => Some (join_values vs)
  end.

(** [Headers.prototype.set] on a value that is a normalised header value
    already, as are those the module sets (a MIME type of the mime
    database followed by [;charset=utf-8], the name of a [BufferEncoding],
    a decimal number): the first entry of that name takes the new value
    and the later ones are removed; an absent name is appended. *)
Fixpoint Headers_replace (name value : string) (seen : bool) (h : Headers) : Headers :=
  match h with
  | [] => []
  | e :: rest =>
      if name_is name e then
        if seen then Headers_replace name value true rest
        else (to_lower name, value) :: Headers_replace name value true rest
      else e :: Headers_replace name value seen rest
  end.

Definition Headers_set (name value : string) (h : Headers) : Headers :=
  if Headers_has name h then Headers_replace name value false h
  else header_list_append name value h.

(** HTTP whitespace: tab, line feed, carriage return, space. *)
Definition is_http_whitespace (c : ascii) : bool :=
  let n := nat_of_ascii c in
  (n =? 9)%nat || (n =? 10)%nat || (n =? 13)%nat || (n =? 32)%nat.

Fixpoint strip_leading (s : string) : string :=
  match s with
  | EmptyString => EmptyString
  | String c s' => if is_http_whitespace c then strip_leading s' else s
  end.

Fixpoint strip_trailing (s : string) : string :=
  match s with
  | EmptyString => EmptyString
  | String c s' =>
      match strip_trailing s' with
      | EmptyString => if is_http_whitespace c then EmptyString else String c EmptyString
      | t => String c t
      end
  end.

(** Fetch, "normalize" a header value: leading and trailing HTTP
    whitespace is removed. *)
Definition header_value_normalize (v : string) : string :=
  strip_trailing (strip_leading v).

(** Fetch, "header value" (of a normalised value): no NUL, line feed or
    carriage return. *)
Fixpoint header_value_valid (v : string) : bool :=
  match v with
  | EmptyString => true
  | String c v' =>
      let n := nat_of_ascii c in
      negb ((n =? 0)%nat || (n =? 10)%nat || (n =? 13)%nat) && header_value_valid v'
  end.

(** The characters of an HTTP token. *)
Definition is_token_char (c : ascii) : bool :=
  let n := nat_of_ascii c in
  (n =? 33)%nat || ((35 <=? n)%nat && (n <=? 39)%nat) || (n =? 42)%nat
  || (n =? 43)%nat || (n =? 45)%nat || (n =? 46)%nat
  || ((48 <=? n)%nat && (n <=? 57)%nat) || ((65 <=? n)%nat && (n <=? 90)%nat)
  || ((94 <=? n)%nat && (n <=? 122)%nat) || (n =? 124)%nat || (n =? 126)%nat.

Fixpoint all_token_chars (s : string) : bool :=
  match s with
  | EmptyString => true
  | String c s' => is_token_char c && all_token_chars s'
  end.

(** Fetch, "header name": a non-empty token. *)
Definition header_name_valid (name : string) : bool :=
  truthy_string name && all_token_chars name.

(** [Headers.prototype.append] on a value from outside: the value is
    normalised, name and value are validated, and the pair is appended. *)
Definition Headers_append (name value : string) (h : Headers) : JsError + Headers :=
  let v := header_value_normalize value in
  if header_name_valid name && header_value_valid v
  then inr (header_list_append name v h)
  else inl (TypeError "Invalid header name or value").

(** The [headers] member of a [ResponseInit]: a record or sequence of
    pairs of byte strings, or a [Headers] object. *)
Inductive HeadersInit :=
| HeadersRecord (entries : list (string * string))
| HeadersObject (h : Headers).

Fixpoint Headers_fill_entries (entries : list (string * string)) (h : Headers)
    : JsError + Headers :=
  match entries with
  | [] => inr h
  | (name, value) :: rest =>
      match Headers_append name value h with
      | inl e => inl e
      | inr h' => Headers_fill_entries rest h'
      end
  end.

(** Fetch, "fill": every pair of the init is appended.  The entries of a
    [Headers] object were validated and normalised when they entered it,
    and are copied. *)
Definition Headers_fill (init : HeadersInit) (h : Headers) : JsError + Headers :=
  match init with
  | HeadersRecord entries => Headers_fill_entries entries h
  | HeadersObject h0 => inr (h ++ h0)
  end.

(** ** Responses *)

(** What a response body was built from: a string or raw bytes. *)
Inductive BodyInit :=
| BodyString (s : CodeUnits)
| BodyBytes (b : list Byte.byte).

Record ResponseInit := {
  init_status : option Z;
  init_statusText : option string;
  init_headers : option HeadersInit;
}.

Record Response := {
  status : N;
  statusText : string;
  headers : Headers;
  body : option BodyInit;
}.

(** The conversion of an integer to [unsigned short] (Web IDL). *)
Definition to_unsigned_short (n : Z) : N := Z.to_N (n mod 65536).

Definition status_in_range (s : N) : bool := ((200 <=? s) && (s <=? 599))%N.

(** Fetch, "null body status". *)
Definition is_null_body_status (s : N) : bool :=
  ((s =? 101) || (s =? 103) || (s =? 204) || (s =? 205) || (s =? 304))%N.

(** The reason-phrase production: tab, space, visible characters and
    obs-text. *)
Fixpoint reason_phrase_valid (s : string) : bool :=
  match s with
  | EmptyString => true
  | String c s' =>
      let n := nat_of_ascii c in
      ((n =? 9)%nat || ((32 <=? n)%nat && negb (n =? 127)%nat)) && reason_phrase_valid s'
  end.

(** The content type a body brings with it: a string is text, bytes have
    none. *)
Definition with_body_content_type (b : BodyInit) (h : Headers) : Headers :=
  match b with
  | BodyString _ =>
      if Headers_has "Content-Type" h then h
      else header_list_append "Content-Type" "text/plain;charset=UTF-8" h
  | BodyBytes _ => h
  end.

(** [new Response(body, init)] (Fetch, "initialize a response"): the
    state of the constructed object, or what the constructor throws.  The
    guard of a browser against set-cookie is left out, as server runtimes
    leave it out. *)
Definition Response_new (b : option BodyInit) (init : ResponseInit)
    : JsError + Response :=
  let st := to_unsigned_short (default 200%Z (init_status init)) in
  if negb (status_in_range st) then
    inl (RangeError "init[status] must be in the range of 200 to 599, inclusive.")
  else if negb (reason_phrase_valid (default "" (init_statusText init))) then
    inl (TypeError "Invalid statusText")
  else
    match Headers_fill (default (HeadersRecord []) (init_headers init)) Headers_new with
    | inl e => inl e
    | inr h =>
        match b with
        | None =>
            inr {| status := st;
                   statusText := default "" (init_statusText init);
                   headers := h;
                   body := None |}
        | Some bi =>
            if is_null_body_status st then
              inl (TypeError "Response with null body status cannot have body")
            else
              inr {| status := st;
                     statusText := default "" (init_statusText init);
                     headers := with_body_content_type bi h;
                     body := Some bi |}
        end
    end.

Definition Response_with_headers (f : Headers → Headers) (r : Response) : Response :=
  {| status := status r;
     statusText := statusText r;
     headers := f (headers r);
     body := body r |}.

(** ** The world of one invocation *)

Record LogOptions := { level : string }.

(** Calls made to the two collaborators that act on the outside: the
    logging sink and the cookie attachment. *)
Inductive Effect :=
| Warn (channel message : string)
| AttachCookies (response : loc).

Record World := {
  (** symbol-keyed own properties of objects, by object identity and
      [Symbol.for] key *)
  slots : gmap (loc * string) JsValue;
  (** the set-cookie entries accumulated by each [AstroCookies] object *)
  jars : gmap loc (list string);
  (** the [Response] objects *)
  heap : gmap loc Response;
  (** calls to [warn] and [attachCookiesToResponse], oldest first *)
  effects : list Effect;
}.

Definition set_slots (f : gmap (loc * string) JsValue → gmap (loc * string) JsValue)
    (w : World) : World :=
  {| slots := f (slots w); jars := jars w; heap := heap w; effects := effects w |}.

Definition set_jars (f : gmap loc (list string) → gmap loc (list string))
    (w : World) : World :=
  {| slots := slots w; jars := f (jars w); heap := heap w; effects := effects w |}.

Definition set_heap (f : gmap loc Response → gmap loc Response) (w : World) : World :=
  {| slots := slots w; jars := jars w; heap := f (heap w); effects := effects w |}.

Definition add_effect (e : Effect) (w : World) : World :=
  {| slots := slots w; jars := jars w; heap := heap w; effects := effects w ++ [e] |}.

(** ** The computation monad *)

(** A computation either returns a value or throws, and leaves a world
    behind in both cases. *)
Inductive Outcome (A : Type) :=
| Returned (a : A) (w : World)
| Threw (e : JsError) (w : World).

Arguments Returned {A} a w.
Arguments Threw {A} e w.

Definition M (A : Type) : Type := World → Outcome A.

Definition ret {A} (a : A) : M A := λ w, Returned a w.

Definition throw {A} (e : JsError) : M A := λ w, Threw e w.

Definition bind {A B} (m : M A) (k : A → M B) : M B :=
  λ w, match m w with
       | Returned a w' => k a w'
       | Threw e w' => Threw e w'
       end.

Definition modify (f : World → World) : M unit := λ w, Returned tt (f w).

Definition gets {A} (f : World → A) : M A := λ w, Returned (f w) w.

Global Instance M_ret : MRet M := @ret.
Global Instance M_bind : MBind M := λ A B k m, bind m k.

Definition world_of {A} (o : Outcome A) : World :=
  match o with
  | Returned _ w => w
  | Threw _ w => w
  end.

(** ** Objects of the platform in the world *)

(** A new object gets a fresh identity. *)
Definition alloc (r : Response) : M loc :=
  λ w, let l := fresh (dom (heap w)) in Returned l (set_heap <[l := r]> w).

(** [new Response(body, init)] as a statement. *)
Definition Response_construct (b : option BodyInit) (init : ResponseInit) : M loc :=
  match Response_new b init with
  | inl e => throw e
  | inr r => alloc r
  end.

(** [response.headers.get(name)] through a reference. *)
Definition response_headers_get (l : loc) (name : string) : M (option string) :=
  gets (λ w, r ← heap w !! l; Headers_get name (headers r)).

(** [Reflect.get], [Reflect.set] and the [in] operator on a symbol key. *)
Definition Reflect_get (o : loc) (key : string) : M JsValue :=
  gets (λ w, default JsUndefined (slots w !! (o, key))).

Definition Reflect_set (o : loc) (key : string) (v : JsValue) : M unit :=
  modify (set_slots <[(o, key) := v]>).

Definition has_property (o : loc) (key : string) : M bool :=
  gets (λ w, bool_decide (is_Some (slots w !! (o, key)))).

(** Modelled from the spec: [warn] of core/logger is not among the
    sources.  The spec has the logging sink accept a sink, a channel and a
    message for a non-fatal warning; the call is recorded in the trace. *)
Definition warn (logging : LogOptions) (channel message : string) : M unit :=
  modify (add_effect (Warn channel message)).

(** ** Cookies *)

Definition jar_entries (w : World) (cookies : loc) : list string :=
  default [] (jars w !! cookies).

(** Modelled from the spec: [AstroCookies] of core/cookies is not among
    the sources.  The spec has the jar constructed from a request and
    exposing the set-cookie entries accumulated since; a new jar has
    none. *)
Definition AstroCookies_new : M loc :=
  λ w, let c := fresh (dom (jars w)) in Returned c (set_jars <[c := []]> w).

Definition add_set_cookies (entries : list string) (h : Headers) : Headers :=
  foldl (λ acc c, header_list_append "Set-Cookie" c acc) h entries.

(** Modelled from the spec: [attachCookiesToResponse] of core/cookies is
    not among the sources.  The spec describes it as the operation that
    merges the jar's accumulated set-cookie entries into the response's
    headers, and that changes nothing when the jar has no entries. *)
Definition attachCookiesToResponse (response cookies : loc) : M unit :=
  modify (λ w,
    add_effect (AttachCookies response)
      (set_heap (alter (Response_with_headers (add_set_cookies (jar_entries w cookies)))
                       response) w)).

(** ** Data of the endpoint module *)

(** A [Request] reference: the identity of the object and its read-only
    address.  Its symbol-keyed properties are in the world's [slots]. *)
Record Request := {
  request_id : loc;
  request_url : string;
}.

(** A [URL] object, by its serialisation. *)
Inductive URL := URL_with_href (href : string).

Record APIContext := {
  cookies : loc;
  request : Request;
  params : gmap string string;
  site : option URL;
  generator : string;
  props : gmap string JsValue;
  url : URL;
  (** captured by the [clientAddress] getter *)
  adapterName : option string;
}.

Record RouteData := {
  route : string;
  prerender : bool;
}.

Record RenderContext := {
  rc_request : Request;
  rc_params : gmap string string;
  rc_props : gmap string JsValue;
  rc_route : option RouteData;
}.

Record Environment := {
  env_ssr : bool;
  env_site : option string;
  env_adapterName : option string;
  env_logging : LogOptions;
}.

(** The deprecated plain-object result of a handler. *)
Inductive LegacyBody :=
| BodyStr (s : CodeUnits)
| BodyU8 (b : list Byte.byte).

Record EndpointOutput := {
  eo_body : LegacyBody;
  eo_encoding : option BufferEncoding;
  (** [Some] exactly when the object has an own property [headers] *)
  eo_headers : option (list (string * string));
}.

(** [response instanceof Response] decides between the two shapes. *)
Inductive RawResult :=
| NativeResponse (response : loc)
| LegacyObject (output : EndpointOutput).

Definition clientAddressSymbol : string := "astro.clientAddress".
Definition clientLocalsSymbol : string := "astro.locals".

Definition ResponseWithEncoding_ignored : string :=
  "`ResponseWithEncoding` is ignored in SSR. Please return an instance of Response. See https://docs.astro.build/en/core-concepts/endpoints/#server-endpoints-api-routes for more information.".

Definition simple_object_deprecated : string :=
  " returns a simple object which is deprecated. Please return an instance of Response. See https://docs.astro.build/en/core-concepts/endpoints/#server-endpoints-api-routes for more information.".

Definition headers_not_supported : string :=
  "Setting headers is not supported when returning an object. Please return an instance of Response. See https://docs.astro.build/en/core-concepts/endpoints/#server-endpoints-api-routes for more information.".

Definition encoding_ignored : string :=
  "`encoding` is ignored in SSR. To return a charset other than UTF-8, please return an instance of Response. See https://docs.astro.build/en/core-concepts/endpoints/#server-endpoints-api-routes for more information.".

(** What reading [ctx.route.route] throws when [ctx.route] is undefined. *)
Definition route_of_undefined : JsError :=
  TypeError "Cannot read properties of undefined (reading 'route')".

Definition is_utf8_name (e : BufferEncoding) : bool :=
  match e with
  | utf8 | utf_8 => true
  | _ => false
  end.

(** [encoding == null || encoding === 'utf8' || encoding === 'utf-8'] *)
Definition utf8_or_unspecified (encoding : option BufferEncoding) : bool :=
  match encoding with
  | None => true
  | Some e => is_utf8_name e
  end.

(** Node's [Buffer.from(string, encoding)]: an undefined encoding means
    'utf8'; the other encodings are those of the platform, [transcode]. *)
Definition Buffer_from (transcode : BufferEncoding → CodeUnits → list Byte.byte)
    (s : CodeUnits) (encoding : option BufferEncoding) : list Byte.byte :=
  match encoding with
  | None => utf8_encode s
  | Some e => if is_utf8_name e then utf8_encode s else transcode e s
  end.

Section Endpoint.

(** The collaborators that the module imports. *)
Variable ASTRO_VERSION : string.
(** The URL parser of [new URL(...)]: [None] where the constructor throws. *)
Variable URL_parse : string → option URL.
Variable ClientAddressNotAvailable_message : string → string.
Variable StaticClientAddressNotAvailable_message : string.
Variable LocalsNotAnObject_message : string.
(** [mime.getType]: a type, or [null]. *)
Variable mime_getType : string → option string.
(** The global [Buffer], when the platform has one. *)
Variable Buffer : option (BufferEncoding → CodeUnits → list Byte.byte).
Variable EndpointHandler : Type.
Variable MiddlewareEndpointHandler : Type.
Variable renderEndpoint :
  EndpointHandler → APIContext → bool → LogOptions → M RawResult.
Variable callMiddleware :
  LogOptions → MiddlewareEndpointHandler → APIContext → M RawResult → M RawResult.

(** *** [createAPIContext] *)

(** [new URL(s)] *)
Definition URL_new (s : string) : M URL :=
  match URL_parse s with
  | Some u => mret u
  | None => throw (TypeError "Invalid URL")
  end.

(** The members of the object literal are evaluated in order: the jar,
    then [site], then [url]. *)
Definition createAPIContext (request0 : Request) (params0 : gmap string string)
    (site0 : option string) (props0 : gmap string JsValue)
    (adapterName0 : option string) : M APIContext :=
  jar ← AstroCookies_new;
  site1 ← match site0 with
          | Some s => if truthy_string s then u ← URL_new s; mret (Some u)
                      else mret None
          | None => mret None
          end;
  url1 ← URL_new (request_url request0);
  mret {| cookies := jar;
          request := request0;
          params := params0;
          site := site1;
          generator := "Astro v" +:+ ASTRO_VERSION;
          props := props0;
          url := url1;
          adapterName := adapterName0 |}.

(** [context.redirect(path, status)]: the path becomes a byte string when
    the init dictionary is converted. *)
Definition redirect (path : CodeUnits) (status0 : option Z) : M loc :=
  match to_ByteString path with
  | None => throw (TypeError "Cannot convert argument to a ByteString")
  | Some location =>
      Response_construct None
        {| init_status := Some (or_number status0 302%Z);
           init_statusText := None;
           init_headers := Some (HeadersRecord [("Location", location)]) |}
  end.

(** [get clientAddress()] *)
Definition clientAddress (context : APIContext) : M JsValue :=
  present ← has_property (request_id (request context)) clientAddressSymbol;
  if negb present then
    match adapterName context with
    | Some name =>
        if truthy_string name then
          throw (AstroError ClientAddressNotAvailable
                   (ClientAddressNotAvailable_message name))
        else
          throw (AstroError StaticClientAddressNotAvailable
                   StaticClientAddressNotAvailable_message)
    | None =>
        throw (AstroError StaticClientAddressNotAvailable
                 StaticClientAddressNotAvailable_message)
    end
  else Reflect_get (request_id (request context)) clientAddressSymbol.

(** The [locals] property defined on the context. *)
Definition locals_get (context : APIContext) : M JsValue :=
  Reflect_get (request_id (request context)) clientLocalsSymbol.

Definition locals_set (context : APIContext) (val : JsValue) : M unit :=
  if bool_decide (typeof val ≠ "object") then
    throw (AstroError LocalsNotAnObject LocalsNotAnObject_message)
  else Reflect_set (request_id (request context)) clientLocalsSymbol val.

(** *** [ResponseWithEncoding] *)

Definition ResponseWithEncoding_new (b : option BodyInit) (init : ResponseInit)
    (encoding : BufferEncoding) : M loc :=
  this ← Response_construct b init;
  modify (set_heap (alter (Response_with_headers
                             (Headers_set "X-Astro-Encoding" (encoding_name encoding)))
                          this));;
  mret this.

(** *** [callEndpoint] *)

(** Lines 183-209: the body handed to [new Response] and the headers
    after the optional [Content-Length]. *)
Definition resolve_body (o : EndpointOutput) (h : Headers) : BodyInit * Headers :=
  match eo_body o with
  | BodyU8 b =>
      (BodyBytes b, Headers_set "Content-Length" (toString (length b)) h)
  | BodyStr s =>
      match Buffer with
      | Some transcode =>
          let b := Buffer_from transcode s (eo_encoding o) in
          (BodyBytes b, Headers_set "Content-Length" (toString (length b)) h)
      | None =>
          if utf8_or_unspecified (eo_encoding o) then
            let b := utf8_encode s in
            (BodyBytes b, Headers_set "Content-Length" (toString (length b)) h)
          else (BodyString s, h)
      end
  end.

(** Lines 172-181: the headers before the body is resolved. *)
Definition legacy_headers (routeId : string) (o : EndpointOutput) : Headers :=
  let mimeType := or_string (mime_getType routeId) "text/plain" in
  let h := Headers_set "Content-Type" (mimeType +:+ ";charset=utf-8") Headers_new in
  match eo_encoding o with
  | Some e => Headers_set "X-Astro-Encoding" (encoding_name e) h
  | None => h
  end.

(** [ctx.route?.prerender], of which only the truth value is used. *)
Definition route_prerender (r : option RouteData) : bool :=
  match r with
  | Some rd => prerender rd
  | None => false
  end.

(** Lines 108-128: the context is built and the handler runs, inside
    the middleware when there is one. *)
Definition raw_result (mod_ : EndpointHandler) (env : Environment)
    (ctx : RenderContext) (onRequest : option MiddlewareEndpointHandler)
    : M (APIContext * RawResult) :=
  context ← createAPIContext (rc_request ctx) (rc_params ctx) (env_site env)
              (rc_props ctx) (env_adapterName env);
  response ← match onRequest with
             | Some handler =>
                 callMiddleware (env_logging env) handler context
                   (renderEndpoint mod_ context (env_ssr env) (env_logging env))
             | None => renderEndpoint mod_ context (env_ssr env) (env_logging env)
             end;
  mret (context, response).

(** Lines 130-216: from the raw result to the response returned. *)
Definition normalize (env : Environment) (ctx : RenderContext)
    (context : APIContext) (response : RawResult) : M loc :=
  let isEndpointSSR := env_ssr env && negb (route_prerender (rc_route ctx)) in
  match response with
  | NativeResponse l =>
      (if isEndpointSSR then
         marker ← response_headers_get l "X-Astro-Encoding";
         if truthy_opt_string marker
         then warn (env_logging env) "ssr" ResponseWithEncoding_ignored
         else mret tt
       else mret tt);;
      attachCookiesToResponse l (cookies context);;
      mret l
  | LegacyObject o =>
      match rc_route ctx with
      | None => throw route_of_undefined
      | Some rd =>
          warn (env_logging env) "astro" (route rd +:+ simple_object_deprecated);;
          (if isEndpointSSR then
             (if bool_decide (is_Some (eo_headers o))
              then warn (env_logging env) "ssr" headers_not_supported
              else mret tt);;
             (if bool_decide (is_Some (eo_encoding o))
              then warn (env_logging env) "ssr" encoding_ignored
              else mret tt)
           else mret tt);;
          let '(b, h) := resolve_body o (legacy_headers (route rd) o) in
          l ← Response_construct (Some b)
                 {| init_status := Some 200%Z;
                    init_statusText := None;
                    init_headers := Some (HeadersObject h) |};
          attachCookiesToResponse l (cookies context);;
          mret l
      end
  end.

Definition callEndpoint (mod_ : EndpointHandler) (env : Environment)
    (ctx : RenderContext) (onRequest : option MiddlewareEndpointHandler) : M loc :=
  '(context, response) ← raw_result mod_ env ctx onRequest;
  normalize env ctx context response.

End Endpoint.

(** ** Vocabulary of the statements *)

(** The header entries that carry the cookies of a jar. *)
Definition set_cookie_entries (entries : list string) : Headers :=
  (λ c, ("set-cookie", c)) <$> entries.

(** The warnings of the native branch (lines 133-139). *)
Definition native_warnings (env : Environment) (ctx : RenderContext)
    (marker : option string) : list Effect :=
  if env_ssr env && negb (route_prerender (rc_route ctx)) && truthy_opt_string marker
  then [Warn "ssr" ResponseWithEncoding_ignored]
  else [].

(** The warnings of the legacy branch (lines 147-169). *)
Definition legacy_warnings (env : Environment) (ctx : RenderContext)
    (rd : RouteData) (o : EndpointOutput) : list Effect :=
  Warn "astro" (route rd +:+ simple_object_deprecated)
  :: (if env_ssr env && negb (route_prerender (rc_route ctx)) then
        (if bool_decide (is_Some (eo_headers o))
         then [Warn "ssr" headers_not_supported] else [])
        ++ (if bool_decide (is_Some (eo_encoding o))
            then [Warn "ssr" encoding_ignored] else [])
      else []).


(** The length announced for a body: bytes have one, a string that is
    passed through has none. *)
Definition content_length_of (b : BodyInit) : option nat :=
  match b with
  | BodyBytes bs => Some (length bs)
  | BodyString _ => None
  end.

(** The three headers the legacy branch can build, in the order in which
    it sets them. *)
Definition legacy_header_list (contentType : string)
    (encoding : option BufferEncoding) (contentLength : option nat) : Headers :=
  ("content-type", contentType)
  :: from_option (λ e, [("x-astro-encoding", encoding_name e)]) [] encoding
  ++ from_option (λ n, [("content-length", toString n)]) [] contentLength.

(** The same legacy object with another [headers] property, or none. *)
Definition with_headers (hs : option (list (string * string))) (o : EndpointOutput)
    : EndpointOutput :=
  {| eo_body := eo_body o; eo_encoding := eo_encoding o; eo_headers := hs |}.

(** [isEndpointSSR] of line 130. *)
Definition isEndpointSSR (env : Environment) (ctx : RenderContext) : bool :=
  env_ssr env && negb (route_prerender (rc_route ctx)).

(** [sub] occurs in [s]. *)
Definition contains (sub s : string) : Prop :=
  ∃ pre post, s = pre +:+ sub +:+ post.

(** ** Sample collaborators and inputs *)

Definition empty_world : World :=
  {| slots := ∅; jars := ∅; heap := ∅; effects := [] |}.

Definition sample_request : Request :=
  {| request_id := 7; request_url := "https://example.com/a.txt" |}.

(** A handler is a function of the context; [renderEndpoint] calls it and
    [callMiddleware] hands the continuation to the middleware. *)
Definition SampleHandler : Type := APIContext → M RawResult.
Definition SampleMiddleware : Type := APIContext → M RawResult → M RawResult.

Definition sample_renderEndpoint (handler : SampleHandler) (context : APIContext)
    (ssr : bool) (logging : LogOptions) : M RawResult :=
  handler context.

Definition sample_callMiddleware (logging : LogOptions) (onRequest : SampleMiddleware)
    (context : APIContext) (next : M RawResult) : M RawResult :=
  onRequest context next.

(** [context.cookies.set] as far as the entries to send are concerned. *)
Definition sample_cookies_set (jar : loc) (entry : string) : M unit :=
  modify (set_jars (alter (λ entries, entries ++ [entry]) jar)).

(** A handler that sets two cookies and returns a native response. *)
Definition native_handler (init : ResponseInit) : SampleHandler :=
  λ context,
    sample_cookies_set (cookies context) "a=1";;
    sample_cookies_set (cookies context) "b=2";;
    l ← Response_construct (Some (BodyString (code_units_of "ok"))) init;
    mret (NativeResponse l).

(** A handler that sets two cookies and returns a legacy object. *)
Definition legacy_handler (o : EndpointOutput) : SampleHandler :=
  λ context,
    sample_cookies_set (cookies context) "a=1";;
    sample_cookies_set (cookies context) "b=2";;
    mret (LegacyObject o).


(** A parser that takes the https addresses. *)
Definition sample_URL_parse (s : string) : option URL :=
  if String.prefix "https://" s then Some (URL_with_href s) else None.

Definition sample_mime (routeId : string) : option string :=
  if bool_decide (routeId = "/a.txt") then Some "text/plain"
  else if bool_decide (routeId = "/a.json") then Some "application/json"
  else None.

Definition sample_env (ssr : bool) : Environment :=
  {| env_ssr := ssr;
     env_site := None;
     env_adapterName := None;
     env_logging := {| level := "warn" |} |}.

Definition sample_ctx (r : option RouteData) : RenderContext :=
  {| rc_request := sample_request;
     rc_params := ∅;
     rc_props := ∅;
     rc_route := r |}.

Definition sample_route (routeId : string) : option RouteData :=
  Some {| route := routeId; prerender := false |}.

Definition no_init : ResponseInit :=
  {| init_status := None; init_statusText := None; init_headers := None |}.

Definition hello_utf8 : EndpointOutput :=
  {| eo_body := BodyStr (code_units_of "hello");
     eo_encoding := Some utf8;
     eo_headers := None |}.

Definition sample_message (name : string) : string :=
  "`Astro.clientAddress` is not available in the `" +:+ name
  +:+ "` adapter. File an issue with the adapter to add support.".

Definition sample_callEndpoint (Buffer : option (BufferEncoding → CodeUnits → list Byte.byte))
    (handler : SampleHandler) (env : Environment) (ctx : RenderContext)
    (onRequest : option SampleMiddleware) : M loc :=
  callEndpoint "2.0.0" sample_URL_parse sample_mime Buffer SampleHandler SampleMiddleware
    sample_renderEndpoint sample_callMiddleware handler env ctx onRequest.

Definition sample_raw_result (handler : SampleHandler) (env : Environment)
    (ctx : RenderContext) (onRequest : option SampleMiddleware)
    : M (APIContext * RawResult) :=
  raw_result "2.0.0" sample_URL_parse SampleHandler SampleMiddleware
    sample_renderEndpoint sample_callMiddleware handler env ctx onRequest.

(** The context [createAPIContext] makes for [sample_request] in the
    empty world, where the first jar gets the reference 0. *)
Definition sample_context (adapterName0 : option string) : APIContext :=
  {| cookies := 0;
     request := sample_request;
     params := ∅;
     site := None;
     generator := "Astro v2.0.0";
     props := ∅;
     url := URL_with_href "https://example.com/a.txt";
     adapterName := adapterName0 |}.

(** A response init whose only header is an empty [X-Astro-Encoding]. *)
Definition empty_marker_init : ResponseInit :=
  {| init_status := None;
     init_statusText := None;
     init_headers := Some (HeadersRecord [("X-Astro-Encoding", "")]) |}.

(** The response [new Response("ok", empty_marker_init)] constructs. *)
Definition empty_marker_response : Response :=
  {| status := 200%N;
     statusText := "";
     headers := [("x-astro-encoding", "");
                 ("content-type", "text/plain;charset=UTF-8")];
     body := Some (BodyString (code_units_of "ok")) |}.

Definition marker_init : ResponseInit :=
  {| init_status := Some 201%Z;
     init_statusText := None;
     init_headers :=
       Some (HeadersRecord [("X-Astro-Encoding", "latin1"); ("Set-Cookie", "own=1")]) |}.

(** The response [new Response("ok", marker_init)] constructs. *)
Definition marker_response : Response :=
  {| status := 201%N;
     statusText := "";
     headers := [("x-astro-encoding", "latin1");
                 ("set-cookie", "own=1");
                 ("content-type", "text/plain;charset=UTF-8")];
     body := Some (BodyString (code_units_of "ok")) |}.

Definition latin1_with_headers : EndpointOutput :=
  {| eo_body := BodyStr (code_units_of "caf" ++ [233%N]);
     eo_encoding := Some latin1;
     eo_headers := Some [("X-Custom", "1")] |}.

(** A handler that sets a cookie and answers with [context.redirect]. *)
Definition redirect_handler (path : CodeUnits) (status0 : option Z) : SampleHandler :=
  λ context,
    sample_cookies_set (cookies context) "seen=1";;
    l ← redirect path status0;
    mret (NativeResponse l).

(** A handler that answers with a [ResponseWithEncoding]. *)
Definition encoded_handler (b : option BodyInit) (init : ResponseInit)
    (encoding : BufferEncoding) : SampleHandler :=
  λ context,
    l ← ResponseWithEncoding_new b init encoding;
    mret (NativeResponse l).

(** A middleware that answers by itself and never calls [next]. *)
Definition short_circuit_middleware : SampleMiddleware :=
  λ context next,
    sample_cookies_set (cookies context) "m=0";;
    l ← redirect (code_units_of "/login") None;
    mret (NativeResponse l).

Definition ascii_object : EndpointOutput :=
  {| eo_body := BodyStr (code_units_of "GET /a.txt");
     eo_encoding := None;
     eo_headers := None |}.

Definition base64_with_headers : EndpointOutput :=
  {| eo_body := BodyU8 [Byte.x00; Byte.xff];
     eo_encoding := Some base64;
     eo_headers := Some [] |}.

(** A context of another request. *)
Definition other_context : APIContext :=
  {| cookies := 1;
     request := {| request_id := 8; request_url := "https://example.com/b" |};
     params := ∅;
     site := None;
     generator := "Astro v2.0.0";
     props := ∅;
     url := URL_with_href "https://example.com/b";
     adapterName := Some "@astrojs/node" |}.

(** A world in which the sample request has a client address and the
    other request has locals. *)
Definition busy_world : World :=
  set_slots <[(8, clientLocalsSymbol) := JsObject 1]>
    (set_slots <[(7, clientAddressSymbol) := JsString "203.0.113.9"]> empty_world).

(** The empty world after [createAPIContext] has made the first jar. *)
Definition world_with_jar : World := set_jars <[0 := []]> empty_world.

(** A response that carries a client address as the value of a header. *)
Definition echo_address (context : APIContext) (v : JsValue) : M RawResult :=
  l ← Response_construct None
         {| init_status := None;
            init_statusText := None;
            init_headers :=
              Some (HeadersRecord
                      [("X-Client", match v with JsString a => a | _ => "" end)]) |};
  mret (NativeResponse l).

(** A handler that reads [context.clientAddress] and echoes it as the
    value of a header. *)
Definition address_handler : SampleHandler :=
  λ context,
    v ← clientAddress sample_message "static" context;
    echo_address context v.

Definition node_env : Environment :=
  {| env_ssr := false;
     env_site := None;
     env_adapterName := Some "@astrojs/node";
     env_logging := {| level := "warn" |} |}.

(** An environment whose [site] has no scheme. *)
Definition malformed_site_env : Environment :=
  {| env_ssr := true;
     env_site := Some "example.com";
     env_adapterName := None;
     env_logging := {| level := "warn" |} |}.

(** ** Lemmas on header lists *)

Lemma add_set_cookies_app (entries : list string) (h : Headers) :
  add_set_cookies entries h = h ++ set_cookie_entries entries.
Proof.
  unfold add_set_cookies, set_cookie_entries.
  revert h. induction entries as [|c entries IH]; intros h; simpl.
  - by rewrite app_nil_r.
  - rewrite IH. unfold header_list_append. by rewrite <- app_assoc.
Qed.

Lemma Headers_values_app (name : string) (h1 h2 : Headers) :
  Headers_values name (h1 ++ h2) = Headers_values name h1 ++ Headers_values name h2.
Proof. unfold Headers_values. by rewrite List.filter_app, fmap_app. Qed.

Lemma Headers_values_set_cookie_entries (entries : list string) :
  Headers_values "Set-Cookie" (set_cookie_entries entries) = entries.
Proof.
  unfold Headers_values, set_cookie_entries.
  induction entries as [|c entries IH]; [done|].
  rewrite fmap_cons. simpl. f_equal. exact IH.
Qed.

Lemma Headers_values_other_set_cookie_entries (name : string) (entries : list string) :
  to_lower name ≠ "set-cookie" →
  Headers_values name (set_cookie_entries entries) = [].
Proof.
  intros Hne. unfold Headers_values, set_cookie_entries.
  induction entries as [|c entries IH]; simpl; [done|].
  unfold name_is at 1. simpl. rewrite bool_decide_eq_false_2; [done|congruence].
Qed.

Lemma Headers_get_app_set_cookie_entries (name : string) (h : Headers) (entries : list string) :
  to_lower name ≠ "set-cookie" →
  Headers_get name (h ++ set_cookie_entries entries) = Headers_get name h.
Proof.
  intros Hne. unfold Headers_get.
  by rewrite Headers_values_app, Headers_values_other_set_cookie_entries, app_nil_r.
Qed.

Lemma Headers_has_values (name : string) (h : Headers) :
  Headers_has name h = false ↔ Headers_values name h = [].
Proof.
  unfold Headers_has, Headers_values.
  induction h as [|e h IH]; simpl; [done|].
  destruct (name_is name e); simpl; [split; discriminate|exact IH].
Qed.

Lemma Headers_values_replace_seen (name value : string) (h : Headers) :
  Headers_values name (Headers_replace name value true h) = [].
Proof.
  unfold Headers_values.
  induction h as [|e h IH]; simpl; [done|].
  destruct (name_is name e) eqn:He; simpl; [done|]. by rewrite He.
Qed.

Lemma name_is_self (name value : string) : name_is name (to_lower name, value) = true.
Proof. unfold name_is. by apply bool_decide_eq_true_2. Qed.

Lemma Headers_values_replace (name value : string) (h : Headers) :
  Headers_has name h = true →
  Headers_values name (Headers_replace name value false h) = [value].
Proof.
  unfold Headers_has.
  induction h as [|e h IH]; simpl; [discriminate|].
  destruct (name_is name e) eqn:He; simpl.
  - intros _. unfold Headers_values. simpl. rewrite name_is_self. simpl.
    f_equal. apply Headers_values_replace_seen.
  - intros Hh. unfold Headers_values. simpl. rewrite He. by apply IH.
Qed.

(** [get] after [set] of the same name reads the value that was set. *)
Lemma Headers_get_set (name value : string) (h : Headers) :
  Headers_get name (Headers_set name value h) = Some value.
Proof.
  unfold Headers_get, Headers_set.
  destruct (Headers_has name h) eqn:Hh.
  - by rewrite Headers_values_replace.
  - apply Headers_has_values in Hh. unfold header_list_append.
    rewrite Headers_values_app, Hh. unfold Headers_values. simpl.
    by rewrite name_is_self.
Qed.

Lemma Headers_values_replace_other (name value other : string) (seen : bool) (h : Headers) :
  to_lower other ≠ to_lower name →
  Headers_values other (Headers_replace name value seen h) = Headers_values other h.
Proof.
  intros Hne. unfold Headers_values. revert seen.
  induction h as [|e h IH]; intros seen; simpl; [done|].
  destruct (name_is name e) eqn:He.
  - assert (name_is other e = false) as Ho.
    { unfold name_is in *. apply bool_decide_eq_true in He.
      apply bool_decide_eq_false_2. congruence. }
    rewrite Ho. destruct seen; simpl; [apply IH|].
    unfold name_is at 1. simpl.
    rewrite bool_decide_eq_false_2 by congruence. apply IH.
  - simpl. destruct (name_is other e); simpl; by rewrite IH.
Qed.

(** [set] leaves the values of every other name as they were. *)
Lemma Headers_get_set_other (name value other : string) (h : Headers) :
  to_lower other ≠ to_lower name →
  Headers_get other (Headers_set name value h) = Headers_get other h.
Proof.
  intros Hne. unfold Headers_get, Headers_set.
  destruct (Headers_has name h).
  - by rewrite Headers_values_replace_other.
  - unfold header_list_append. rewrite Headers_values_app.
    unfold Headers_values at 2. simpl. unfold name_is at 1. simpl.
    rewrite bool_decide_eq_false_2 by congruence. simpl. by rewrite app_nil_r.
Qed.

(** ** Running the computations *)

(** ** The headers of the legacy branch *)

Lemma resolve_body_headers mime_getType Buffer routeId o :
  let '(b, h) := resolve_body Buffer o (legacy_headers mime_getType routeId o) in
  h = legacy_header_list (or_string (mime_getType routeId) "text/plain" +:+ ";charset=utf-8")
        (eo_encoding o) (content_length_of b).
Proof.
  unfold resolve_body, legacy_headers.
  destruct (eo_body o) as [s|bs], (eo_encoding o) as [e|], Buffer as [transcode|];
    simpl; try reflexivity;
    destruct (is_utf8_name e); reflexivity.
Qed.

(** [new Response(body, { status: 200, headers })] on the headers of the
    legacy branch never throws and adds nothing. *)
Lemma Response_new_legacy b contentType encoding contentLength :
  Response_new (Some b)
    {| init_status := Some 200%Z;
       init_statusText := None;
       init_headers :=
         Some (HeadersObject (legacy_header_list contentType encoding contentLength)) |}
  = inr {| status := 200%N;
           statusText := "";
           headers := legacy_header_list contentType encoding contentLength;
           body := Some b |}.
Proof. by destruct b. Qed.


Lemma Headers_get_legacy_content_type contentType encoding contentLength entries :
  Headers_get "Content-Type"
    (legacy_header_list contentType encoding contentLength ++ set_cookie_entries entries)
  = Some contentType.
Proof.
  rewrite Headers_get_app_set_cookie_entries by done.
  by destruct encoding, contentLength.
Qed.

Lemma Headers_get_legacy_marker contentType encoding contentLength entries :
  Headers_get "X-Astro-Encoding"
    (legacy_header_list contentType encoding contentLength ++ set_cookie_entries entries)
  = encoding_name <$> encoding.
Proof.
  rewrite Headers_get_app_set_cookie_entries by done.
  by destruct encoding, contentLength.
Qed.

Lemma Headers_get_legacy_content_length contentType encoding contentLength entries :
  Headers_get "Content-Length"
    (legacy_header_list contentType encoding contentLength ++ set_cookie_entries entries)
  = toString <$> contentLength.
Proof.
  rewrite Headers_get_app_set_cookie_entries by done.
  by destruct encoding, contentLength.
Qed.

Lemma Headers_has_legacy contentType encoding contentLength entries name :
  Headers_has name
    (legacy_header_list contentType encoding contentLength ++ set_cookie_entries entries)
  = true →
  to_lower name ∈ ["content-type"; "x-astro-encoding"; "content-length"; "set-cookie"].
Proof.
  unfold Headers_has. rewrite existsb_exists. intros [[n v] [Hin Hn]].
  apply bool_decide_eq_true in Hn. simpl in Hn. subst n.
  apply in_app_or in Hin as [Hin|Hin].
  - unfold legacy_header_list in Hin.
    destruct encoding, contentLength; simpl in Hin;
      repeat (destruct Hin as [Hin|Hin]; [injection Hin as <- _; set_solver|]);
      done.
  - unfold set_cookie_entries in Hin. apply list_elem_of_In, list_elem_of_fmap in Hin as [c [Hc _]].
    injection Hc as <- _. set_solver.
Qed.

Ltac unfold_M :=
  unfold mbind, M_bind, mret, M_ret, bind, ret, throw, modify, gets in *.

Ltac unfold_callEndpoint := unfold callEndpoint.
Ltac unfold_normalize := unfold normalize.
Ltac unfold_raw_result := unfold raw_result.
Ltac unfold_clientAddress := unfold clientAddress.
Ltac unfold_locals_set := unfold locals_set.
Ltac unfold_createAPIContext := unfold createAPIContext.

Lemma fresh_heap_None (w : World) : heap w !! fresh (dom (heap w)) = None.
Proof. apply not_elem_of_dom, is_fresh. Qed.

Section Steps.

Variable ASTRO_VERSION : string.
Variable URL_parse : string → option URL.
Variable mime_getType : string → option string.
Variable Buffer : option (BufferEncoding → CodeUnits → list Byte.byte).
Variable EndpointHandler : Type.
Variable MiddlewareEndpointHandler : Type.
Variable renderEndpoint :
  EndpointHandler → APIContext → bool → LogOptions → M RawResult.
Variable callMiddleware :
  LogOptions → MiddlewareEndpointHandler → APIContext → M RawResult → M RawResult.

Local Abbreviation callEndpoint :=
  (callEndpoint ASTRO_VERSION URL_parse mime_getType Buffer EndpointHandler
     MiddlewareEndpointHandler renderEndpoint callMiddleware).
Local Abbreviation raw_result :=
  (raw_result ASTRO_VERSION URL_parse EndpointHandler MiddlewareEndpointHandler
     renderEndpoint callMiddleware).
Local Abbreviation normalize := (normalize mime_getType Buffer).



Lemma callEndpoint_after_handler mod_ env ctx onRequest w context raw w1 :
  raw_result mod_ env ctx onRequest w = Returned (context, raw) w1 →
  callEndpoint mod_ env ctx onRequest w = normalize env ctx context raw w1.
Proof. intros H. unfold_callEndpoint. unfold_M. by rewrite H. Qed.

Lemma callEndpoint_handler_throws mod_ env ctx onRequest w e w1 :
  raw_result mod_ env ctx onRequest w = Threw e w1 →
  callEndpoint mod_ env ctx onRequest w = Threw e w1.
Proof. intros H. unfold_callEndpoint. unfold_M. by rewrite H. Qed.

Lemma normalize_native env ctx context l w1 :
  normalize env ctx context (NativeResponse l) w1 =
  Returned l
    {| slots := slots w1;
       jars := jars w1;
       heap := alter (Response_with_headers
                        (add_set_cookies (jar_entries w1 (cookies context))))
                     l (heap w1);
       effects := effects w1
                  ++ native_warnings env ctx
                       (r ← heap w1 !! l; Headers_get "X-Astro-Encoding" (headers r))
                  ++ [AttachCookies l] |}.
Proof.
  unfold_normalize. unfold native_warnings, attachCookiesToResponse,
    response_headers_get, warn.
  unfold_M.
  destruct (env_ssr env && negb (route_prerender (rc_route ctx))); simpl.
  - destruct (truthy_opt_string _); simpl.
    + unfold jar_entries, add_effect, set_heap; simpl.
      by rewrite <- app_assoc.
    + done.
  - done.
Qed.

Lemma normalize_legacy env ctx context o rd w1 :
  rc_route ctx = Some rd →
  normalize env ctx context (LegacyObject o) w1 =
  let '(b, h) := resolve_body Buffer o (legacy_headers mime_getType (route rd) o) in
  let l := fresh (dom (heap w1)) in
  Returned l
    {| slots := slots w1;
       jars := jars w1;
       heap := <[l := {| status := 200%N;
                         statusText := "";
                         headers := add_set_cookies (jar_entries w1 (cookies context)) h;
                         body := Some b |}]> (heap w1);
       effects := effects w1 ++ legacy_warnings env ctx rd o ++ [AttachCookies l] |}.
Proof.
  intros Hr. unfold_normalize. unfold legacy_warnings. rewrite Hr.
  pose proof (resolve_body_headers mime_getType Buffer (route rd) o) as Hh.
  destruct (resolve_body _ _ _) as [b h]. subst h.
  unfold Response_construct. rewrite Response_new_legacy.
  unfold attachCookiesToResponse, alloc, warn. unfold_M.
  unfold jar_entries, add_effect, set_heap.
  destruct (env_ssr env && negb (route_prerender (Some rd))); simpl;
    repeat (case_bool_decide; simpl);
    by rewrite alter_insert_eq, <- ?app_assoc.
Qed.

Lemma normalize_legacy_no_route env ctx context o w1 :
  rc_route ctx = None →
  normalize env ctx context (LegacyObject o) w1 = Threw route_of_undefined w1.
Proof. intros Hr. unfold_normalize. by rewrite Hr. Qed.

End Steps.

(** What a context that [createAPIContext] returned is made of. *)
Lemma createAPIContext_returned ASTRO_VERSION URL_parse
    request0 params0 site0 props0 adapterName0 w context w0 :
  createAPIContext ASTRO_VERSION URL_parse request0 params0 site0 props0 adapterName0 w
  = Returned context w0 →
  w0 = set_jars <[cookies context := []]> w
  ∧ jars w !! cookies context = None
  ∧ request context = request0
  ∧ params context = params0
  ∧ props context = props0
  ∧ adapterName context = adapterName0.
Proof.
  unfold createAPIContext, AstroCookies_new, URL_new. unfold_M.
  destruct site0 as [s|];
    [destruct (truthy_string s); [destruct (URL_parse s); [|discriminate]|]|];
    simpl; (destruct (URL_parse (request_url request0)); [|discriminate]);
    intros H; injection H as <- <-; simpl; repeat split;
    apply not_elem_of_dom, is_fresh.
Qed.

(** [createAPIContext] returns when [site], if truthy, and the URL of the
    request parse. *)
Lemma createAPIContext_returns ASTRO_VERSION URL_parse
    request0 params0 site0 props0 adapterName0 w :
  (∀ s, site0 = Some s → truthy_string s = true → is_Some (URL_parse s)) →
  is_Some (URL_parse (request_url request0)) →
  ∃ context w0,
    createAPIContext ASTRO_VERSION URL_parse request0 params0 site0 props0 adapterName0 w
    = Returned context w0.
Proof.
  intros Hsite [u Hu].
  unfold createAPIContext, AstroCookies_new, URL_new. unfold_M.
  destruct site0 as [s|]; [destruct (truthy_string s) eqn:Ht|]; simpl.
  - destruct (Hsite s eq_refl Ht) as [u0 Hu0]. rewrite Hu0. simpl. rewrite Hu.
    by eexists _, _.
  - rewrite Hu. by eexists _, _.
  - rewrite Hu. by eexists _, _.
Qed.

Section Normalizer.

Variable ASTRO_VERSION : string.
Variable URL_parse : string → option URL.
Variable mime_getType : string → option string.
Variable Buffer : option (BufferEncoding → CodeUnits → list Byte.byte).
Variable EndpointHandler : Type.
Variable MiddlewareEndpointHandler : Type.
Variable renderEndpoint :
  EndpointHandler → APIContext → bool → LogOptions → M RawResult.
Variable callMiddleware :
  LogOptions → MiddlewareEndpointHandler → APIContext → M RawResult → M RawResult.

Local Abbreviation callEndpoint :=
  (callEndpoint ASTRO_VERSION URL_parse mime_getType Buffer EndpointHandler
     MiddlewareEndpointHandler renderEndpoint callMiddleware).
Local Abbreviation raw_result :=
  (raw_result ASTRO_VERSION URL_parse EndpointHandler MiddlewareEndpointHandler
     renderEndpoint callMiddleware).
Local Abbreviation createAPIContext := (createAPIContext ASTRO_VERSION URL_parse).

(** The response of the native branch: the object the handler returned,
    at the same reference, with the jar's entries appended to its
    headers; nothing else in the world moves. *)
Lemma callEndpoint_native mod_ env ctx onRequest w context l w1 r :
  raw_result mod_ env ctx onRequest w = Returned (context, NativeResponse l) w1 →
  heap w1 !! l = Some r →
  ∃ w2,
    callEndpoint mod_ env ctx onRequest w = Returned l w2
    ∧ heap w2 = <[l := {| status := status r;
                          statusText := statusText r;
                          headers := headers r
                                     ++ set_cookie_entries (jar_entries w1 (cookies context));
                          body := body r |}]> (heap w1)
    ∧ slots w2 = slots w1
    ∧ jars w2 = jars w1
    ∧ effects w2 = effects w1
                   ++ native_warnings env ctx (Headers_get "X-Astro-Encoding" (headers r))
                   ++ [AttachCookies l].
Proof.
  intros Hraw Hl.
  rewrite (callEndpoint_after_handler _ _ _ _ _ _ _ _ _ _ _ _ _ _ _ _ Hraw).
  rewrite normalize_native. eexists. split; [reflexivity|]. simpl.
  rewrite Hl. simpl. repeat split.
  apply map_eq. intros i. destruct (decide (i = l)) as [->|Hne].
  - rewrite lookup_alter_eq, lookup_insert_eq, Hl. simpl.
    unfold Response_with_headers. by rewrite add_set_cookies_app.
  - by rewrite lookup_alter_ne, lookup_insert_ne.
Qed.

(** The response of the legacy branch: a new object with status 200,
    the resolved body, the headers the branch built and the jar's
    entries. *)
Lemma callEndpoint_legacy mod_ env ctx onRequest w context o rd w1 :
  raw_result mod_ env ctx onRequest w = Returned (context, LegacyObject o) w1 →
  rc_route ctx = Some rd →
  ∃ l w2 b,
    callEndpoint mod_ env ctx onRequest w = Returned l w2
    ∧ b = (resolve_body Buffer o (legacy_headers mime_getType (route rd) o)).1
    ∧ heap w1 !! l = None
    ∧ heap w2 = <[l := {| status := 200%N;
                          statusText := "";
                          headers :=
                            legacy_header_list
                              (or_string (mime_getType (route rd)) "text/plain"
                                 +:+ ";charset=utf-8")
                              (eo_encoding o) (content_length_of b)
                            ++ set_cookie_entries (jar_entries w1 (cookies context));
                          body := Some b |}]> (heap w1)
    ∧ slots w2 = slots w1
    ∧ jars w2 = jars w1
    ∧ effects w2 = effects w1 ++ legacy_warnings env ctx rd o ++ [AttachCookies l].
Proof.
  intros Hraw Hr.
  rewrite (callEndpoint_after_handler _ _ _ _ _ _ _ _ _ _ _ _ _ _ _ _ Hraw).
  rewrite (normalize_legacy _ _ _ _ _ _ _ _ Hr).
  pose proof (resolve_body_headers mime_getType Buffer (route rd) o) as Hh.
  destruct (resolve_body _ _ _) as [b h]. subst h.
  eexists _, _, b. split; [reflexivity|]. cbn [heap slots jars effects fst].
  split; [done|]. split; [apply fresh_heap_None|]. repeat split.
  by rewrite add_set_cookies_app.
Qed.




(** C3 (amended).  A native response comes back at the same reference;
    its status, status text and body are untouched, its headers are the
    old ones followed by the jar's entries, and no other object moves.
    One warning is logged when the endpoint is server-rendered and
    [X-Astro-Encoding] reads as a non-empty value; otherwise none is. *)
Theorem native_response_kept mod_ env ctx onRequest w context l w1 r :
  raw_result mod_ env ctx onRequest w = Returned (context, NativeResponse l) w1 →
  heap w1 !! l = Some r →
  ∃ w2 r',
    callEndpoint mod_ env ctx onRequest w = Returned l w2
    ∧ heap w2 !! l = Some r'
    ∧ status r' = status r
    ∧ statusText r' = statusText r
    ∧ body r' = body r
    ∧ headers r' = headers r ++ set_cookie_entries (jar_entries w1 (cookies context))
    ∧ (∀ name, to_lower name ≠ "set-cookie" →
         Headers_get name (headers r') = Headers_get name (headers r))
    ∧ (∀ l', l' ≠ l → heap w2 !! l' = heap w1 !! l')
    ∧ slots w2 = slots w1
    ∧ jars w2 = jars w1
    ∧ (∀ v, isEndpointSSR env ctx = true →
         Headers_get "X-Astro-Encoding" (headers r) = Some v → v ≠ "" →
         effects w2 = effects w1
                      ++ [Warn "ssr" ResponseWithEncoding_ignored; AttachCookies l])
    ∧ (isEndpointSSR env ctx = false
       ∨ Headers_get "X-Astro-Encoding" (headers r) = None
       ∨ Headers_get "X-Astro-Encoding" (headers r) = Some "" →
       effects w2 = effects w1 ++ [AttachCookies l]).
Proof.
  intros Hraw Hl.
  destruct (callEndpoint_native _ _ _ _ _ _ _ _ _ Hraw Hl)
    as (w2 & Hrun & Hheap & Hslots & Hjars & Heff).
  eexists w2, _. split; [exact Hrun|].
  rewrite Hheap, lookup_insert_eq. split; [reflexivity|].
  cbn [status statusText body headers].
  do 4 (split; [reflexivity|]).
  split; [intros name Hn; by apply Headers_get_app_set_cookie_entries|].
  split; [intros l' Hne; by rewrite lookup_insert_ne|].
  do 2 (split; [done|]).
  rewrite Heff. unfold native_warnings, isEndpointSSR. split.
  - intros v -> -> Hv. by destruct v.
  - intros [-> |[-> | ->]]; [done| |]; by rewrite andb_false_r.
Qed.

(** C4.  The response built from a legacy object has status 200; its
    [Content-Type] is the type [mime.getType] finds for the route
    identifier, or text/plain when it finds none, followed by
    [;charset=utf-8]; a declared encoding is copied to
    [X-Astro-Encoding].  For the body "hello" with encoding utf8 the
    body is the five bytes of its UTF-8 form, [Content-Length] is 5 and
    the marker is utf8, with or without [Buffer]. *)
Theorem legacy_status_and_content_type mod_ env ctx onRequest w context o rd w1 :
  raw_result mod_ env ctx onRequest w = Returned (context, LegacyObject o) w1 →
  rc_route ctx = Some rd →
  ∃ l w2 r,
    callEndpoint mod_ env ctx onRequest w = Returned l w2
    ∧ heap w2 !! l = Some r
    ∧ status r = 200%N
    ∧ (∀ m, mime_getType (route rd) = Some m → m ≠ "" →
         Headers_get "Content-Type" (headers r) = Some (m +:+ ";charset=utf-8"))
    ∧ (mime_getType (route rd) = None ∨ mime_getType (route rd) = Some "" →
         Headers_get "Content-Type" (headers r) = Some "text/plain;charset=utf-8")
    ∧ (∀ e, eo_encoding o = Some e →
         Headers_get "X-Astro-Encoding" (headers r) = Some (encoding_name e))
    ∧ (eo_encoding o = None → Headers_get "X-Astro-Encoding" (headers r) = None)
    ∧ (eo_body o = BodyStr (code_units_of "hello") → eo_encoding o = Some utf8 →
         body r = Some (BodyBytes (utf8_encode (code_units_of "hello")))
         ∧ utf8_encode (code_units_of "hello")
           = [Byte.x68; Byte.x65; Byte.x6c; Byte.x6c; Byte.x6f]
         ∧ Headers_get "Content-Length" (headers r) = Some "5"
         ∧ Headers_get "X-Astro-Encoding" (headers r) = Some "utf8").
Proof.
  intros Hraw Hr.
  destruct (callEndpoint_legacy _ _ _ _ _ _ _ _ _ Hraw Hr)
    as (l & w2 & b & Hrun & Hb & _ & Hheap & _).
  eexists l, w2, _. split; [exact Hrun|].
  rewrite Hheap, lookup_insert_eq. split; [reflexivity|].
  cbn [status body headers].
  rewrite Headers_get_legacy_content_type, Headers_get_legacy_marker,
    Headers_get_legacy_content_length.
  split; [reflexivity|].
  split; [intros m -> Hm; by destruct m|].
  split; [by intros [-> | ->]|].
  split; [by intros e ->|].
  split; [by intros ->|].
  intros Hbody Henc. unfold resolve_body in Hb. rewrite Hbody, Henc in Hb.
  destruct Buffer as [transcode|]; simpl in Hb; subst b; by rewrite Henc.
Qed.

(** C9.  The [headers] property of a legacy object never reaches the
    response: the response's headers are [Content-Type], then the marker
    and [Content-Length] when they apply, then the jar's entries, and the
    response is the same whatever that property holds.  When the
    endpoint is not server-rendered the only warning is the deprecation
    notice. *)
Theorem legacy_headers_discarded mod_ env ctx onRequest w context o rd w1 :
  raw_result mod_ env ctx onRequest w = Returned (context, LegacyObject o) w1 →
  rc_route ctx = Some rd →
  ∃ l w2 r contentLength,
    callEndpoint mod_ env ctx onRequest w = Returned l w2
    ∧ heap w2 !! l = Some r
    ∧ headers r
      = legacy_header_list
          (or_string (mime_getType (route rd)) "text/plain" +:+ ";charset=utf-8")
          (eo_encoding o) contentLength
        ++ set_cookie_entries (jar_entries w1 (cookies context))
    ∧ (∀ name, Headers_has name (headers r) = true →
         to_lower name
         ∈ ["content-type"; "x-astro-encoding"; "content-length"; "set-cookie"])
    ∧ (∀ hs, ∃ w2',
         normalize mime_getType Buffer env ctx context
           (LegacyObject (with_headers hs o)) w1 = Returned l w2'
         ∧ heap w2' = heap w2)
    ∧ (isEndpointSSR env ctx = false →
         effects w2 = effects w1
                      ++ [Warn "astro" (route rd +:+ simple_object_deprecated);
                          AttachCookies l]).
Proof.
  intros Hraw Hr.
  destruct (callEndpoint_legacy _ _ _ _ _ _ _ _ _ Hraw Hr)
    as (l & w2 & b & Hrun & Hb & _ & Hheap & _ & _ & Heff).
  eexists l, w2, _, (content_length_of b). split; [exact Hrun|].
  rewrite Hheap, lookup_insert_eq. split; [reflexivity|].
  cbn [headers]. split; [reflexivity|].
  split; [intros name; apply Headers_has_legacy|].
  split.
  - intros hs.
    rewrite (callEndpoint_after_handler _ _ _ _ _ _ _ _ _ _ _ _ _ _ _ _ Hraw) in Hrun.
    rewrite (normalize_legacy _ _ env ctx context o rd w1 Hr) in Hrun.
    rewrite (normalize_legacy _ _ env ctx context (with_headers hs o) rd w1 Hr).
    change (resolve_body Buffer (with_headers hs o)
              (legacy_headers mime_getType (route rd) (with_headers hs o)))
      with (resolve_body Buffer o (legacy_headers mime_getType (route rd) o)).
    destruct (resolve_body Buffer o _) as [b' h'].
    injection Hrun as <- <-. eexists. split; [reflexivity|exact Hheap].
  - intros HS. rewrite Heff. unfold legacy_warnings.
    unfold isEndpointSSR in HS. by rewrite HS.
Qed.

(** C10.  An absent route is tolerated by the computation of
    [isEndpointSSR] and by the native branch, which returns; the legacy
    branch reads the route identifier unguarded and throws a TypeError
    before it logs anything; with a route present the legacy branch
    returns a response. *)
Theorem route_required_by_legacy_branch mod_ env ctx onRequest w context raw w1 :
  raw_result mod_ env ctx onRequest w = Returned (context, raw) w1 →
  (rc_route ctx = None → isEndpointSSR env ctx = env_ssr env)
  ∧ (∀ l, rc_route ctx = None → raw = NativeResponse l →
       ∃ w2, callEndpoint mod_ env ctx onRequest w = Returned l w2)
  ∧ (∀ o, rc_route ctx = None → raw = LegacyObject o →
       callEndpoint mod_ env ctx onRequest w = Threw route_of_undefined w1)
  ∧ (∀ o rd, rc_route ctx = Some rd → raw = LegacyObject o →
       ∃ l w2, callEndpoint mod_ env ctx onRequest w = Returned l w2).
Proof.
  intros Hraw.
  rewrite (callEndpoint_after_handler _ _ _ _ _ _ _ _ _ _ _ _ _ _ _ _ Hraw).
  split; [|split; [|split]].
  - intros Hr. unfold isEndpointSSR. rewrite Hr. simpl. apply andb_true_r.
  - intros l _ ->. rewrite normalize_native. by eexists.
  - intros o Hr ->. by apply normalize_legacy_no_route.
  - intros o rd Hr ->. rewrite (normalize_legacy _ _ _ _ _ _ _ _ Hr).
    destruct (resolve_body _ _ _). by eexists _, _.
Qed.

End Normalizer.

(** ** The request context *)

Section Context.

Variable ASTRO_VERSION : string.
Variable URL_parse : string → option URL.
Variable ClientAddressNotAvailable_message : string → string.
Variable StaticClientAddressNotAvailable_message : string.
Variable LocalsNotAnObject_message : string.

(** The spec's account of the message template, which is not among the
    sources: the message carries the adapter name. *)
Hypothesis message_carries_name :
  ∀ name, contains name (ClientAddressNotAvailable_message name).

Local Abbreviation createAPIContext := (createAPIContext ASTRO_VERSION URL_parse).
Local Abbreviation clientAddress :=
  (clientAddress ClientAddressNotAvailable_message
     StaticClientAddressNotAvailable_message).
Local Abbreviation locals_set := (locals_set LocalsNotAnObject_message).

(** C5 (amended).  [createAPIContext] makes a context when [site], if
    not empty, and the URL of the request parse.  On a context it made for
    a request, reading [clientAddress] returns the marker's value as stored
    when the request carries the marker.  Without the marker it throws
    ClientAddressNotAvailable, with the message template applied to the
    adapter name and so containing it, when a non-empty adapter name was
    given, and StaticClientAddressNotAvailable when the adapter name is
    absent or empty. *)
Theorem clientAddress_guarded request0 params0 site0 props0 adapterName0 w :
  ((∀ s, site0 = Some s → truthy_string s = true → is_Some (URL_parse s)) →
   is_Some (URL_parse (request_url request0)) →
   ∃ context w0,
     createAPIContext request0 params0 site0 props0 adapterName0 w
     = Returned context w0)
  ∧ ∀ context w0,
      createAPIContext request0 params0 site0 props0 adapterName0 w
      = Returned context w0 →
      ∀ w',
        (∀ v, slots w' !! (request_id request0, clientAddressSymbol) = Some v →
           clientAddress context w' = Returned v w')
        ∧ (slots w' !! (request_id request0, clientAddressSymbol) = None →
           (∀ name, adapterName0 = Some name → name ≠ "" →
              ∃ message,
                clientAddress context w'
                = Threw (AstroError ClientAddressNotAvailable message) w'
                ∧ message = ClientAddressNotAvailable_message name
                ∧ contains name message)
           ∧ (adapterName0 = None ∨ adapterName0 = Some "" →
              clientAddress context w'
              = Threw (AstroError StaticClientAddressNotAvailable
                         StaticClientAddressNotAvailable_message) w')).
Proof.
  split; [apply createAPIContext_returns|].
  intros context w0 Hc w'.
  destruct (createAPIContext_returned _ _ _ _ _ _ _ _ _ _ Hc)
    as (_ & _ & Hreq & _ & _ & Hname).
  unfold_clientAddress. unfold has_property, Reflect_get. unfold_M.
  rewrite Hreq, Hname. split.
  - intros v Hv. rewrite Hv. rewrite bool_decide_eq_true_2 by eauto.
    simpl. by rewrite Hv.
  - intros Hn. rewrite Hn.
    rewrite bool_decide_eq_false_2 by (by intros [? ?]). simpl. split.
    + intros name -> Hne. eexists. split; [by destruct name|].
      split; [reflexivity|apply message_carries_name].
    + by intros [-> | ->].
Qed.

(** C6 (amended).  [createAPIContext] makes a context when [site], if
    not empty, and the URL of the request parse.  On a context it made for
    a request, assigning to [locals] a value whose [typeof] is not "object"
    throws LocalsNotAnObject and changes nothing.  Assigning an object
    whose [typeof] is "object" stores it in the request's [astro.locals]
    slot and nowhere else, and a later read returns it, through this
    context or any other context of the same request. *)
Theorem locals_guarded request0 params0 site0 props0 adapterName0 w :
  ((∀ s, site0 = Some s → truthy_string s = true → is_Some (URL_parse s)) →
   is_Some (URL_parse (request_url request0)) →
   ∃ context w0,
     createAPIContext request0 params0 site0 props0 adapterName0 w
     = Returned context w0)
  ∧ ∀ context w0,
      createAPIContext request0 params0 site0 props0 adapterName0 w
      = Returned context w0 →
      ∀ w' val,
        (typeof val ≠ "object" →
           locals_set context val w'
           = Threw (AstroError LocalsNotAnObject LocalsNotAnObject_message) w')
        ∧ (is_Object val = true → typeof val = "object" →
           ∃ w'',
             locals_set context val w' = Returned tt w''
             ∧ locals_get context w'' = Returned val w''
             ∧ slots w'' = <[(request_id request0, clientLocalsSymbol) := val]> (slots w')
             ∧ jars w'' = jars w'
             ∧ heap w'' = heap w'
             ∧ effects w'' = effects w'
             ∧ ∀ other : APIContext,
                 request_id (request other) = request_id request0 →
                 locals_get other w'' = Returned val w'').
Proof.
  split; [apply createAPIContext_returns|].
  intros context w0 Hc w' val.
  destruct (createAPIContext_returned _ _ _ _ _ _ _ _ _ _ Hc)
    as (_ & _ & Hreq & _).
  unfold_locals_set. unfold locals_get, Reflect_set, Reflect_get. unfold_M.
  rewrite Hreq. split.
  - intros Ht. by rewrite bool_decide_eq_true_2.
  - intros _ Ht. rewrite bool_decide_eq_false_2 by (by intros ?).
    eexists. split; [reflexivity|]. simpl.
    rewrite lookup_insert_eq. repeat split.
    intros other ->. by rewrite lookup_insert_eq.
Qed.

(** C7 (amended).  [redirect(path, status)] hands [new Response] the
    status [status || 302] and the header Location.  When the path is a
    byte string, its normalised form is a header value and the status,
    reduced to an unsigned short, lies in 200..599, it returns a new
    response with that status, Location equal to the path without its
    surrounding whitespace, and no body, and changes nothing else in the
    world: the status is 302 when none is given or 0 is given, and the
    given status when that lies in 200..599; Location is the path itself
    when the path has no surrounding whitespace.  Otherwise it throws, and
    the world stays as it was: TypeError for a path that is no byte
    string, RangeError for a status outside the range, TypeError for a
    path that is no header value. *)
Theorem redirect_response path status0 w :
  (to_ByteString path = None →
   ∃ message, redirect path status0 w = Threw (TypeError message) w)
  ∧ ∀ location, to_ByteString path = Some location →
      (status_in_range (to_unsigned_short (or_number status0 302)) = false →
       ∃ message, redirect path status0 w = Threw (RangeError message) w)
      ∧ (status_in_range (to_unsigned_short (or_number status0 302)) = true →
         header_value_valid (header_value_normalize location) = false →
         ∃ message, redirect path status0 w = Threw (TypeError message) w)
      ∧ (status_in_range (to_unsigned_short (or_number status0 302)) = true →
         header_value_valid (header_value_normalize location) = true →
         ∃ l w' r,
           redirect path status0 w = Returned l w'
           ∧ heap w !! l = None
           ∧ heap w' = <[l := r]> (heap w)
           ∧ status r = to_unsigned_short (or_number status0 302)
           ∧ headers r = [("location", header_value_normalize location)]
           ∧ Headers_get "Location" (headers r)
             = Some (header_value_normalize location)
           ∧ body r = None
           ∧ slots w' = slots w
           ∧ jars w' = jars w
           ∧ effects w' = effects w
           ∧ (status0 = None → status r = 302%N)
           ∧ (status0 = Some 0%Z → status r = 302%N)
           ∧ (∀ s, status0 = Some s → (200 ≤ s ≤ 599)%Z → status r = Z.to_N s)
           ∧ (header_value_normalize location = location →
              Headers_get "Location" (headers r) = Some location)).
Proof.
  unfold redirect, Response_construct, Response_new, Headers_fill,
    Headers_fill_entries, Headers_append, alloc.
  unfold_M. split; [intros ->; by eexists|].
  intros location ->.
  cbn [init_status init_statusText init_headers default from_option id].
  change (reason_phrase_valid "") with true.
  change (header_name_valid "Location") with true.
  split; [intros ->; by eexists|].
  split; [intros -> ->; by eexists|].
  intros -> ->. cbn [negb andb].
  eexists _, _, _. split; [reflexivity|].
  split; [apply fresh_heap_None|]. split; [reflexivity|].
  cbn [status headers body].
  do 7 (split; [reflexivity|]).
  split; [by intros ->|]. split; [by intros ->|]. split.
  - intros s -> Hs. unfold or_number, truthy_number, to_unsigned_short.
    destruct (Z.eqb_spec s 0) as [->|_]; [lia|]. simpl.
    f_equal. apply Z.mod_small. lia.
  - intros Hn. by rewrite Hn.
Qed.

(** C8.  [new ResponseWithEncoding(body, init, encoding)] throws exactly
    what [new Response(body, init)] throws, and otherwise makes the same
    object, at the same fresh reference, with the same status, status
    text and body, except that [X-Astro-Encoding] is set to the encoding
    in its headers; all other header names read as before and nothing
    else in the world changes. *)
Theorem ResponseWithEncoding_adds_marker b init encoding w :
  (∀ e w', Response_construct b init w = Threw e w' →
     ResponseWithEncoding_new b init encoding w = Threw e w')
  ∧ ∀ l w1, Response_construct b init w = Returned l w1 →
      ∃ w2 r1 r2,
        ResponseWithEncoding_new b init encoding w = Returned l w2
        ∧ heap w !! l = None
        ∧ heap w1 = <[l := r1]> (heap w)
        ∧ heap w2 = <[l := r2]> (heap w)
        ∧ Response_new b init = inr r1
        ∧ status r2 = status r1
        ∧ statusText r2 = statusText r1
        ∧ body r2 = body r1
        ∧ headers r2
          = Headers_set "X-Astro-Encoding" (encoding_name encoding) (headers r1)
        ∧ Headers_get "X-Astro-Encoding" (headers r2) = Some (encoding_name encoding)
        ∧ (∀ name, to_lower name ≠ "x-astro-encoding" →
             Headers_get name (headers r2) = Headers_get name (headers r1))
        ∧ slots w2 = slots w ∧ jars w2 = jars w ∧ effects w2 = effects w.
Proof.
  unfold ResponseWithEncoding_new, Response_construct, alloc. unfold_M.
  destruct (Response_new b init) as [e0|r1]; split.
  - by intros e w' [= <- <-].
  - discriminate.
  - discriminate.
  - intros l w1 [= <- <-].
    eexists _, r1, (Response_with_headers
                      (Headers_set "X-Astro-Encoding" (encoding_name encoding)) r1).
    split; [reflexivity|].
    split; [apply fresh_heap_None|]. split; [reflexivity|].
    split; [simpl; apply alter_insert_eq|].
    split; [reflexivity|].
    do 4 (split; [reflexivity|]).
    split; [apply Headers_get_set|].
    split; [|done].
    intros name Hn. by apply Headers_get_set_other.
Qed.

End Context.

(** ** The statements at sample inputs *)




(** C3 (amended) on a server-rendered endpoint whose response carries the
    marker latin1. *)
Lemma native_response_kept_witness :
  sample_raw_result (native_handler marker_init) (sample_env true)
    (sample_ctx (sample_route "/api")) None empty_world
  = Returned (sample_context None, NativeResponse 0)
      (world_of (sample_raw_result (native_handler marker_init) (sample_env true)
                   (sample_ctx (sample_route "/api")) None empty_world))
  ∧ heap (world_of (sample_raw_result (native_handler marker_init) (sample_env true)
                      (sample_ctx (sample_route "/api")) None empty_world)) !! 0
    = Some marker_response
  ∧ ∃ w2 r',
      sample_callEndpoint None (native_handler marker_init) (sample_env true)
        (sample_ctx (sample_route "/api")) None empty_world = Returned 0 w2
      ∧ heap w2 !! 0 = Some r'
      ∧ status r' = 201%N
      ∧ body r' = Some (BodyString (code_units_of "ok"))
      ∧ headers r' = [("x-astro-encoding", "latin1"); ("set-cookie", "own=1");
                      ("content-type", "text/plain;charset=UTF-8");
                      ("set-cookie", "a=1"); ("set-cookie", "b=2")]
      ∧ effects w2 = [Warn "ssr" ResponseWithEncoding_ignored; AttachCookies 0].
Proof.
  assert (sample_raw_result (native_handler marker_init) (sample_env true)
            (sample_ctx (sample_route "/api")) None empty_world
          = Returned (sample_context None, NativeResponse 0)
              (world_of (sample_raw_result (native_handler marker_init) (sample_env true)
                           (sample_ctx (sample_route "/api")) None empty_world))) as H
    by (vm_compute; reflexivity).
  assert (heap (world_of (sample_raw_result (native_handler marker_init) (sample_env true)
                            (sample_ctx (sample_route "/api")) None empty_world)) !! 0
          = Some marker_response) as Hl
    by (vm_compute; reflexivity).
  split; [exact H|]. split; [exact Hl|].
  destruct (native_response_kept "2.0.0" sample_URL_parse sample_mime None
              SampleHandler SampleMiddleware sample_renderEndpoint sample_callMiddleware
              (native_handler marker_init) (sample_env true)
              (sample_ctx (sample_route "/api")) None empty_world
              (sample_context None) 0 _ _ H Hl)
    as (w2 & r' & Hrun & Hh & Hst & _ & Hb & Hhd & _ & _ & _ & _ & Hwarn & _).
  exists w2, r'. split; [exact Hrun|]. split; [exact Hh|].
  split; [exact Hst|]. split; [exact Hb|]. split; [exact Hhd|].
  apply (Hwarn "latin1"); [reflexivity|reflexivity|discriminate].
Defined.

(** C3, as stated, fails: the response carries [X-Astro-Encoding] with an
    empty value, the endpoint is server-rendered, and no warning is
    logged. *)
Lemma empty_marker_not_warned :
  Response_new (Some (BodyString (code_units_of "ok"))) empty_marker_init
  = inr empty_marker_response
  ∧ Headers_has "X-Astro-Encoding" (headers empty_marker_response) = true
  ∧ isEndpointSSR (sample_env true) (sample_ctx (sample_route "/api")) = true
  ∧ sample_raw_result (native_handler empty_marker_init) (sample_env true)
      (sample_ctx (sample_route "/api")) None empty_world
    = Returned (sample_context None, NativeResponse 0)
        (world_of (sample_raw_result (native_handler empty_marker_init) (sample_env true)
                     (sample_ctx (sample_route "/api")) None empty_world))
  ∧ heap (world_of (sample_raw_result (native_handler empty_marker_init) (sample_env true)
                      (sample_ctx (sample_route "/api")) None empty_world)) !! 0
    = Some empty_marker_response
  ∧ effects (world_of (sample_callEndpoint None (native_handler empty_marker_init)
                         (sample_env true) (sample_ctx (sample_route "/api")) None
                         empty_world))
    = [AttachCookies 0].
Proof. repeat split; vm_compute; reflexivity. Qed.

(** C4 on the object with body "hello" and encoding utf8 at /a.txt. *)
Lemma legacy_status_and_content_type_witness :
  sample_raw_result (legacy_handler hello_utf8) (sample_env false)
    (sample_ctx (sample_route "/a.txt")) None empty_world
  = Returned (sample_context None, LegacyObject hello_utf8)
      (world_of (sample_raw_result (legacy_handler hello_utf8) (sample_env false)
                   (sample_ctx (sample_route "/a.txt")) None empty_world))
  ∧ rc_route (sample_ctx (sample_route "/a.txt"))
    = Some {| route := "/a.txt"; prerender := false |}
  ∧ ∃ l w2 r,
      sample_callEndpoint None (legacy_handler hello_utf8) (sample_env false)
        (sample_ctx (sample_route "/a.txt")) None empty_world = Returned l w2
      ∧ heap w2 !! l = Some r
      ∧ status r = 200%N
      ∧ Headers_get "Content-Type" (headers r) = Some "text/plain;charset=utf-8"
      ∧ body r = Some (BodyBytes [Byte.x68; Byte.x65; Byte.x6c; Byte.x6c; Byte.x6f])
      ∧ Headers_get "Content-Length" (headers r) = Some "5"
      ∧ Headers_get "X-Astro-Encoding" (headers r) = Some "utf8".
Proof.
  assert (sample_raw_result (legacy_handler hello_utf8) (sample_env false)
            (sample_ctx (sample_route "/a.txt")) None empty_world
          = Returned (sample_context None, LegacyObject hello_utf8)
              (world_of (sample_raw_result (legacy_handler hello_utf8) (sample_env false)
                           (sample_ctx (sample_route "/a.txt")) None empty_world))) as H
    by (vm_compute; reflexivity).
  split; [exact H|]. split; [reflexivity|].
  destruct (legacy_status_and_content_type "2.0.0" sample_URL_parse sample_mime None
              SampleHandler SampleMiddleware sample_renderEndpoint sample_callMiddleware
              (legacy_handler hello_utf8) (sample_env false)
              (sample_ctx (sample_route "/a.txt")) None empty_world
              (sample_context None) hello_utf8
              {| route := "/a.txt"; prerender := false |} _ H eq_refl)
    as (l & w2 & r & Hrun & Hh & Hst & Hct & _ & _ & _ & Hex).
  destruct (Hex eq_refl eq_refl) as (Hb & Hbytes & Hcl & Hm).
  exists l, w2, r. split; [exact Hrun|]. split; [exact Hh|]. split; [exact Hst|].
  split; [apply (Hct "text/plain"); [reflexivity|discriminate]|].
  split; [rewrite Hb, Hbytes; reflexivity|]. split; assumption.
Defined.

(** C9 on an object that declares the header X-Custom. *)
Lemma legacy_headers_discarded_witness :
  sample_raw_result (legacy_handler latin1_with_headers) (sample_env false)
    (sample_ctx (sample_route "/a.json")) None empty_world
  = Returned (sample_context None, LegacyObject latin1_with_headers)
      (world_of (sample_raw_result (legacy_handler latin1_with_headers) (sample_env false)
                   (sample_ctx (sample_route "/a.json")) None empty_world))
  ∧ rc_route (sample_ctx (sample_route "/a.json"))
    = Some {| route := "/a.json"; prerender := false |}
  ∧ ∃ l w2 r,
      sample_callEndpoint None (legacy_handler latin1_with_headers) (sample_env false)
        (sample_ctx (sample_route "/a.json")) None empty_world = Returned l w2
      ∧ heap w2 !! l = Some r
      ∧ Headers_has "X-Custom" (headers r) = false
      ∧ effects w2 = [Warn "astro" ("/a.json" +:+ simple_object_deprecated);
                      AttachCookies l].
Proof.
  assert (sample_raw_result (legacy_handler latin1_with_headers) (sample_env false)
            (sample_ctx (sample_route "/a.json")) None empty_world
          = Returned (sample_context None, LegacyObject latin1_with_headers)
              (world_of (sample_raw_result (legacy_handler latin1_with_headers)
                           (sample_env false) (sample_ctx (sample_route "/a.json")) None
                           empty_world))) as H
    by (vm_compute; reflexivity).
  split; [exact H|]. split; [reflexivity|].
  destruct (legacy_headers_discarded "2.0.0" sample_URL_parse sample_mime None
              SampleHandler SampleMiddleware sample_renderEndpoint sample_callMiddleware
              (legacy_handler latin1_with_headers) (sample_env false)
              (sample_ctx (sample_route "/a.json")) None empty_world
              (sample_context None) latin1_with_headers
              {| route := "/a.json"; prerender := false |} _ H eq_refl)
    as (l & w2 & r & cl & Hrun & Hh & _ & Hnames & _ & Heff).
  exists l, w2, r. split; [exact Hrun|]. split; [exact Hh|]. split.
  - destruct (Headers_has "X-Custom" (headers r)) eqn:Hhas; [|reflexivity].
    apply Hnames in Hhas. vm_compute in Hhas.
    repeat (apply elem_of_cons in Hhas as [Hhas|Hhas]; [discriminate|]).
    by apply elem_of_nil in Hhas.
  - exact (Heff eq_refl).
Defined.

(** C10 on a legacy object where the render context has no route. *)
Lemma route_required_by_legacy_branch_witness :
  sample_raw_result (legacy_handler hello_utf8) (sample_env true)
    (sample_ctx None) None empty_world
  = Returned (sample_context None, LegacyObject hello_utf8)
      (world_of (sample_raw_result (legacy_handler hello_utf8) (sample_env true)
                   (sample_ctx None) None empty_world))
  ∧ isEndpointSSR (sample_env true) (sample_ctx None) = true
  ∧ sample_callEndpoint None (legacy_handler hello_utf8) (sample_env true)
      (sample_ctx None) None empty_world
    = Threw route_of_undefined
        (world_of (sample_raw_result (legacy_handler hello_utf8) (sample_env true)
                     (sample_ctx None) None empty_world))
  ∧ effects (world_of (sample_raw_result (legacy_handler hello_utf8) (sample_env true)
                         (sample_ctx None) None empty_world)) = [].
Proof.
  assert (sample_raw_result (legacy_handler hello_utf8) (sample_env true)
            (sample_ctx None) None empty_world
          = Returned (sample_context None, LegacyObject hello_utf8)
              (world_of (sample_raw_result (legacy_handler hello_utf8) (sample_env true)
                           (sample_ctx None) None empty_world))) as H
    by (vm_compute; reflexivity).
  split; [exact H|].
  destruct (route_required_by_legacy_branch "2.0.0" sample_URL_parse sample_mime None
              SampleHandler SampleMiddleware sample_renderEndpoint sample_callMiddleware
              (legacy_handler hello_utf8) (sample_env true) (sample_ctx None) None
              empty_world (sample_context None) (LegacyObject hello_utf8) _ H)
    as (Hssr & _ & Hthrow & _).
  split; [exact (Hssr eq_refl)|]. split; [exact (Hthrow hello_utf8 eq_refl eq_refl)|].
  vm_compute; reflexivity.
Defined.

Lemma contains_sample_message (name : string) : contains name (sample_message name).
Proof. eexists _, _. reflexivity. Qed.

(** C5 (amended) with the adapter name @astrojs/node. *)
Lemma clientAddress_guarded_witness :
  (∀ name, contains name (sample_message name))
  ∧ createAPIContext "2.0.0" sample_URL_parse sample_request ∅ None ∅
      (Some "@astrojs/node") empty_world
    = Returned (sample_context (Some "@astrojs/node")) world_with_jar
  ∧ clientAddress sample_message "static" (sample_context (Some "@astrojs/node"))
      world_with_jar
    = Threw (AstroError ClientAddressNotAvailable (sample_message "@astrojs/node"))
        world_with_jar
  ∧ contains "@astrojs/node" (sample_message "@astrojs/node")
  ∧ clientAddress sample_message "static" (sample_context (Some "@astrojs/node"))
      (set_slots <[(7, clientAddressSymbol) := JsString "203.0.113.9"]> world_with_jar)
    = Returned (JsString "203.0.113.9")
        (set_slots <[(7, clientAddressSymbol) := JsString "203.0.113.9"]> world_with_jar).
Proof.
  assert (createAPIContext "2.0.0" sample_URL_parse sample_request ∅ None ∅
            (Some "@astrojs/node") empty_world
          = Returned (sample_context (Some "@astrojs/node")) world_with_jar) as Hc
    by (vm_compute; reflexivity).
  split; [exact contains_sample_message|]. split; [exact Hc|].
  pose proof (proj2 (clientAddress_guarded "2.0.0" sample_URL_parse sample_message
                       "static" contains_sample_message
                       sample_request ∅ None ∅ (Some "@astrojs/node") empty_world)
                _ _ Hc)
    as Hw.
  destruct (Hw world_with_jar) as [_ Habsent].
  destruct (Habsent eq_refl) as [Hnamed _].
  destruct (Hnamed "@astrojs/node" eq_refl ltac:(discriminate))
    as (message & Hthrow & -> & Hmsg).
  split; [exact Hthrow|]. split; [exact Hmsg|].
  destruct (Hw (set_slots <[(7, clientAddressSymbol) := JsString "203.0.113.9"]>
                  world_with_jar)) as [Hpresent _].
  exact (Hpresent (JsString "203.0.113.9") eq_refl).
Defined.

(** C5, as stated, fails: an adapter name is supplied, the empty string,
    and the error is StaticClientAddressNotAvailable. *)
Lemma empty_adapter_name_is_static :
  createAPIContext "2.0.0" sample_URL_parse sample_request ∅ None ∅ (Some "") empty_world
  = Returned (sample_context (Some "")) (set_jars <[0 := []]> empty_world)
  ∧ slots (set_jars <[0 := []]> empty_world) !! (7, clientAddressSymbol) = None
  ∧ clientAddress sample_message "static" (sample_context (Some ""))
      (set_jars <[0 := []]> empty_world)
    = Threw (AstroError StaticClientAddressNotAvailable "static")
        (set_jars <[0 := []]> empty_world)
  ∧ ¬ ∃ message w,
        clientAddress sample_message "static" (sample_context (Some ""))
          (set_jars <[0 := []]> empty_world)
        = Threw (AstroError ClientAddressNotAvailable message) w.
Proof.
  split; [vm_compute; reflexivity|]. split; [reflexivity|].
  split; [reflexivity|]. intros (message & w & H). discriminate H.
Qed.

(** C6 (amended) on a number and on an object. *)
Lemma locals_guarded_witness :
  createAPIContext "2.0.0" sample_URL_parse sample_request ∅ None ∅ None empty_world
  = Returned (sample_context None) world_with_jar
  ∧ locals_set "locals" (sample_context None) (JsNumber 42) world_with_jar
    = Threw (AstroError LocalsNotAnObject "locals") world_with_jar
  ∧ ∃ w1,
      locals_set "locals" (sample_context None) (JsObject 3) world_with_jar
      = Returned tt w1
      ∧ locals_get (sample_context None) w1 = Returned (JsObject 3) w1
      ∧ locals_get (sample_context (Some "@astrojs/node")) w1
        = Returned (JsObject 3) w1.
Proof.
  assert (createAPIContext "2.0.0" sample_URL_parse sample_request ∅ None ∅ None
            empty_world
          = Returned (sample_context None) world_with_jar) as Hc
    by (vm_compute; reflexivity).
  split; [exact Hc|].
  pose proof (proj2 (locals_guarded "2.0.0" sample_URL_parse "locals"
                       sample_request ∅ None ∅ None empty_world) _ _ Hc) as Hw.
  destruct (Hw world_with_jar (JsNumber 42)) as [Hthrow _].
  split; [exact (Hthrow ltac:(discriminate))|].
  destruct (Hw world_with_jar (JsObject 3)) as [_ Hstore].
  destruct (Hstore eq_refl eq_refl) as (w1 & Hset & Hget & _ & _ & _ & _ & Hother).
  exists w1. split; [exact Hset|]. split; [exact Hget|].
  exact (Hother (sample_context (Some "@astrojs/node")) eq_refl).
Defined.

(** C6, as stated, fails: [null] is not an object and the assignment
    succeeds; a function is an object and the assignment throws. *)
Lemma locals_null_accepted_function_rejected :
  is_Object JsNull = false
  ∧ locals_set "locals" (sample_context None) JsNull empty_world
    = Returned tt (set_slots <[(7, clientLocalsSymbol) := JsNull]> empty_world)
  ∧ locals_get (sample_context None)
      (set_slots <[(7, clientLocalsSymbol) := JsNull]> empty_world)
    = Returned JsNull (set_slots <[(7, clientLocalsSymbol) := JsNull]> empty_world)
  ∧ is_Object (JsFunction 3) = true
  ∧ locals_set "locals" (sample_context None) (JsFunction 3) empty_world
    = Threw (AstroError LocalsNotAnObject "locals") empty_world.
Proof. repeat split; vm_compute; reflexivity. Qed.

(** C7 (amended) on the path /y and the status 301. *)
Lemma redirect_response_witness :
  to_ByteString (code_units_of "/y") = Some "/y"
  ∧ status_in_range (to_unsigned_short (or_number (Some 301%Z) 302)) = true
  ∧ header_value_valid (header_value_normalize "/y") = true
  ∧ ∃ l w' r,
      redirect (code_units_of "/y") (Some 301%Z) empty_world = Returned l w'
      ∧ heap w' = <[l := r]> (heap empty_world)
      ∧ status r = 301%N
      ∧ Headers_get "Location" (headers r) = Some "/y"
      ∧ body r = None.
Proof.
  split; [reflexivity|]. split; [reflexivity|]. split; [reflexivity|].
  destruct (redirect_response (code_units_of "/y") (Some 301%Z) empty_world)
    as (_ & Hbytes).
  destruct (Hbytes "/y" eq_refl) as (_ & _ & Hok).
  destruct (Hok eq_refl eq_refl)
    as (l & w' & r & Hrun & _ & Hheap & _ & _ & _ & Hb & _ & _ & _ & _ & _ & Hs & Hloc).
  exists l, w', r. split; [exact Hrun|]. split; [exact Hheap|].
  split; [exact (Hs 301%Z eq_refl ltac:(lia))|].
  split; [exact (Hloc eq_refl)|exact Hb].
Defined.

(** C7, as stated, fails: the explicit status 0 gives 302, the statuses 99
    and 600 make the constructor throw, 65837 gives 301, and the path
    " /x " gives the Location "/x". *)
Lemma redirect_edge_inputs :
  redirect (code_units_of "/y") (Some 0%Z) empty_world
  = Returned 0
      (set_heap <[0 := {| status := 302%N;
                          statusText := "";
                          headers := [("location", "/y")];
                          body := None |}]> empty_world)
  ∧ 302%N ≠ 0%N
  ∧ redirect (code_units_of "/y") (Some 99%Z) empty_world
    = Threw (RangeError "init[status] must be in the range of 200 to 599, inclusive.")
        empty_world
  ∧ redirect (code_units_of "/y") (Some 600%Z) empty_world
    = Threw (RangeError "init[status] must be in the range of 200 to 599, inclusive.")
        empty_world
  ∧ redirect (code_units_of "/y") (Some 65837%Z) empty_world
    = Returned 0
        (set_heap <[0 := {| status := 301%N;
                            statusText := "";
                            headers := [("location", "/y")];
                            body := None |}]> empty_world)
  ∧ redirect (code_units_of " /x ") None empty_world
    = Returned 0
        (set_heap <[0 := {| status := 302%N;
                            statusText := "";
                            headers := [("location", "/x")];
                            body := None |}]> empty_world)
  ∧ "/x" ≠ " /x "
  ∧ redirect [47; 10; 120]%N None empty_world
    = Threw (TypeError "Invalid header name or value") empty_world.
Proof. repeat split; try (vm_compute; reflexivity); discriminate. Qed.

(** C8 on an init with a status and headers of its own. *)
Lemma ResponseWithEncoding_adds_marker_witness :
  Response_construct (Some (BodyString (code_units_of "ok"))) marker_init empty_world
  = Returned 0 (set_heap <[0 := marker_response]> empty_world)
  ∧ ∃ w2 r2,
      ResponseWithEncoding_new (Some (BodyString (code_units_of "ok"))) marker_init utf16le
        empty_world = Returned 0 w2
      ∧ heap w2 = <[0 := r2]> (heap empty_world)
      ∧ status r2 = 201%N
      ∧ Headers_get "X-Astro-Encoding" (headers r2) = Some "utf16le"
      ∧ Headers_get "Set-Cookie" (headers r2) = Some "own=1".
Proof.
  assert (Response_construct (Some (BodyString (code_units_of "ok"))) marker_init
            empty_world
          = Returned 0 (set_heap <[0 := marker_response]> empty_world)) as Hnew
    by (vm_compute; reflexivity).
  split; [exact Hnew|].
  destruct (ResponseWithEncoding_adds_marker (Some (BodyString (code_units_of "ok")))
              marker_init utf16le empty_world) as (_ & Hret).
  destruct (Hret 0 _ Hnew)
    as (w2 & r1 & r2 & Hrun & _ & _ & Hheap & Hr1 & Hst & _ & _ & _ & Hm & Hother & _).
  assert (r1 = marker_response) as -> by (by injection Hr1 as <-).
  exists w2, r2. split; [exact Hrun|]. split; [exact Hheap|].
  split; [rewrite Hst; reflexivity|]. split; [exact Hm|].
  rewrite (Hother "Set-Cookie") by discriminate. reflexivity.
Defined.

(** ** Further properties of [callEndpoint] *)

Lemma encoding_name_truthy (e : BufferEncoding) : truthy_string (encoding_name e) = true.
Proof. by destruct e. Qed.

Lemma Response_new_returned b init r :
  Response_new b init = inr r →
  status r = to_unsigned_short (default 200%Z (init_status init))
  ∧ statusText r = default "" (init_statusText init)
  ∧ body r = b.
Proof.
  unfold Response_new.
  destruct (negb (status_in_range _)); [discriminate|].
  destruct (negb (reason_phrase_valid _)); [discriminate|].
  destruct (Headers_fill _ _); [discriminate|].
  destruct b as [bi|]; [destruct (is_null_body_status _); [discriminate|]|];
    by intros [= <-].
Qed.

Lemma ResponseWithEncoding_new_object b init encoding w l w' :
  ResponseWithEncoding_new b init encoding w = Returned l w' →
  ∃ r1,
    Response_new b init = inr r1
    ∧ heap w' !! l
      = Some (Response_with_headers
                (Headers_set "X-Astro-Encoding" (encoding_name encoding)) r1).
Proof.
  unfold ResponseWithEncoding_new, Response_construct, alloc. unfold_M.
  destruct (Response_new b init) as [e|r1]; [discriminate|].
  intros H. injection H as <- <-. exists r1. split; [reflexivity|]. simpl.
  by rewrite lookup_alter_eq, lookup_insert_eq.
Qed.

Lemma redirect_object path status0 w l w' :
  redirect path status0 w = Returned l w' →
  ∃ location,
    to_ByteString path = Some location
    ∧ heap w' !! l
      = Some {| status := to_unsigned_short (or_number status0 302);
                statusText := "";
                headers := [("location", header_value_normalize location)];
                body := None |}.
Proof.
  unfold redirect, Response_construct, Response_new, Headers_fill,
    Headers_fill_entries, Headers_append, alloc.
  unfold_M. destruct (to_ByteString path) as [location|]; [|discriminate].
  cbn [init_status init_statusText init_headers default from_option id].
  change (reason_phrase_valid "") with true.
  change (header_name_valid "Location") with true.
  destruct (status_in_range _); [|discriminate].
  destruct (header_value_valid _); [|discriminate].
  cbn [negb andb]. intros H. injection H as <- <-.
  exists location. split; [reflexivity|]. simpl. by rewrite lookup_insert_eq.
Qed.

Lemma redirect_status_in_range path status0 w l w' :
  redirect path status0 w = Returned l w' →
  status_in_range (to_unsigned_short (or_number status0 302)) = true.
Proof.
  unfold redirect, Response_construct, Response_new. unfold_M.
  destruct (to_ByteString path) as [location|]; [|discriminate].
  cbn [init_status default from_option id].
  by destruct (status_in_range _).
Qed.

Lemma utf8_encode_ascii (s : CodeUnits) :
  Forall (λ c, (c < 128)%N) s → utf8_encode s = byte_of_N <$> s.
Proof.
  induction 1 as [|c s Hc _ IH]; [done|].
  simpl. unfold is_high_surrogate, is_low_surrogate, utf8_of_code_point.
  assert ((0xD800 <=? c)%N = false) as -> by (apply N.leb_gt; lia).
  assert ((0xDC00 <=? c)%N = false) as -> by (apply N.leb_gt; lia).
  assert ((c <? 0x80)%N = true) as -> by (apply N.ltb_lt; lia).
  simpl. by rewrite IH.
Qed.

Section Coverage.

Variable ASTRO_VERSION : string.
Variable URL_parse : string → option URL.
Variable mime_getType : string → option string.
Variable Buffer : option (BufferEncoding → CodeUnits → list Byte.byte).
Variable EndpointHandler : Type.
Variable MiddlewareEndpointHandler : Type.
Variable renderEndpoint :
  EndpointHandler → APIContext → bool → LogOptions → M RawResult.
Variable callMiddleware :
  LogOptions → MiddlewareEndpointHandler → APIContext → M RawResult → M RawResult.

Local Abbreviation callEndpoint :=
  (callEndpoint ASTRO_VERSION URL_parse mime_getType Buffer EndpointHandler
     MiddlewareEndpointHandler renderEndpoint callMiddleware).
Local Abbreviation raw_result :=
  (raw_result ASTRO_VERSION URL_parse EndpointHandler MiddlewareEndpointHandler
     renderEndpoint callMiddleware).

Local Abbreviation createAPIContext := (createAPIContext ASTRO_VERSION URL_parse).

(** X1.  [callEndpoint] catches nothing.  An error thrown while the
    context is made reaches the caller as it is; in particular a [site]
    that is not empty and does not parse as a URL makes [callEndpoint]
    throw the TypeError of [new URL] before the handler is reached, with
    nothing logged and no response touched.  An error of the handler or
    of the middleware reaches the caller as it is, with the world they
    left.  A legacy object under a render context without a route makes
    it throw the TypeError of reading [route] of undefined. *)
Theorem callEndpoint_propagates_errors mod_ env ctx onRequest w :
  (∀ e w',
     createAPIContext (rc_request ctx) (rc_params ctx) (env_site env) (rc_props ctx)
       (env_adapterName env) w = Threw e w' →
     callEndpoint mod_ env ctx onRequest w = Threw e w')
  ∧ (∀ s, env_site env = Some s → truthy_string s = true → URL_parse s = None →
       ∃ w',
         callEndpoint mod_ env ctx onRequest w = Threw (TypeError "Invalid URL") w'
         ∧ slots w' = slots w
         ∧ heap w' = heap w
         ∧ effects w' = effects w)
  ∧ (∀ context w0 e w',
       createAPIContext (rc_request ctx) (rc_params ctx) (env_site env) (rc_props ctx)
         (env_adapterName env) w = Returned context w0 →
       match onRequest with
       | Some handler =>
           callMiddleware (env_logging env) handler context
             (renderEndpoint mod_ context (env_ssr env) (env_logging env))
       | None => renderEndpoint mod_ context (env_ssr env) (env_logging env)
       end w0 = Threw e w' →
       callEndpoint mod_ env ctx onRequest w = Threw e w')
  ∧ (∀ context o w1,
       raw_result mod_ env ctx onRequest w = Returned (context, LegacyObject o) w1 →
       rc_route ctx = None →
       callEndpoint mod_ env ctx onRequest w = Threw route_of_undefined w1).
Proof.
  split; [|split; [|split]].
  - intros e w' Hc. unfold_callEndpoint. unfold_raw_result. unfold_M. by rewrite Hc.
  - intros s Hs Ht Hp. exists (set_jars <[fresh (dom (jars w)) := []]> w).
    split; [|done].
    unfold_callEndpoint. unfold_raw_result. unfold_createAPIContext.
    unfold AstroCookies_new, URL_new. unfold_M. rewrite Hs, Ht. simpl.
    by rewrite Hp.
  - intros context w0 e w' Hc Hstage.
    unfold_callEndpoint. unfold_raw_result. unfold_M. rewrite Hc.
    destruct onRequest; by rewrite Hstage.
  - intros context o w1 Hraw Hr.
    rewrite (callEndpoint_after_handler _ _ _ _ _ _ _ _ _ _ _ _ _ _ _ _ Hraw).
    by apply normalize_legacy_no_route.
Qed.

(** X2.  The handler is reached only through the continuation given to
    the middleware: with a middleware that answers without regard to its
    continuation, the result of [callEndpoint] is the same for every
    handler module. *)
Theorem short_circuit_ignores_handler mod_ mod' env ctx handler w :
  (∀ context next next' w0,
     callMiddleware (env_logging env) handler context next w0
     = callMiddleware (env_logging env) handler context next' w0) →
  callEndpoint mod_ env ctx (Some handler) w
  = callEndpoint mod' env ctx (Some handler) w.
Proof.
  intros Hshort. unfold_callEndpoint. unfold_raw_result. unfold_M.
  destruct (createAPIContext _ _ _ _ _ w) as [context w0|e w0]; [|done].
  by rewrite (Hshort context _ (renderEndpoint mod' context (env_ssr env) (env_logging env))).
Qed.


(** X7.  Whatever [callEndpoint] returns, it has left the symbol-keyed
    slots of the request and every cookie jar as the handler left them,
    and it has changed no response object other than the one it returns;
    for a legacy object that one did not exist before. *)
Theorem callEndpoint_frame mod_ env ctx onRequest w context raw w1 l w2 :
  raw_result mod_ env ctx onRequest w = Returned (context, raw) w1 →
  callEndpoint mod_ env ctx onRequest w = Returned l w2 →
  slots w2 = slots w1
  ∧ jars w2 = jars w1
  ∧ (∀ l', l' ≠ l → heap w2 !! l' = heap w1 !! l')
  ∧ (∀ o, raw = LegacyObject o → heap w1 !! l = None).
Proof.
  intros Hraw.
  rewrite (callEndpoint_after_handler _ _ _ _ _ _ _ _ _ _ _ _ _ _ _ _ Hraw).
  destruct raw as [l0|o].
  - rewrite normalize_native. intros H. injection H as <- <-. simpl.
    repeat split; [|done]. intros l' Hne. by rewrite lookup_alter_ne.
  - destruct (rc_route ctx) as [rd|] eqn:Hr.
    + rewrite (normalize_legacy _ _ _ _ _ _ _ _ Hr).
      destruct (resolve_body _ _ _). intros H. injection H as <- <-. simpl.
      repeat split.
      * intros l' Hne. by rewrite lookup_insert_ne.
      * intros _ _. apply fresh_heap_None.
    + by rewrite (normalize_legacy_no_route _ _ _ _ _ _ _ Hr).
Qed.

(** X9.  In the response built from a legacy object, [Content-Length] is
    present exactly when the body is a byte sequence, and then it is the
    decimal length of those bytes; it is absent exactly when the body is
    the string passed through. *)
Theorem content_length_matches_body mod_ env ctx onRequest w context o rd w1 :
  raw_result mod_ env ctx onRequest w = Returned (context, LegacyObject o) w1 →
  rc_route ctx = Some rd →
  ∃ l w2 r,
    callEndpoint mod_ env ctx onRequest w = Returned l w2
    ∧ heap w2 !! l = Some r
    ∧ (∀ n, Headers_get "Content-Length" (headers r) = Some n →
         ∃ bs, body r = Some (BodyBytes bs) ∧ n = toString (length bs))
    ∧ (∀ bs, body r = Some (BodyBytes bs) →
         Headers_get "Content-Length" (headers r) = Some (toString (length bs)))
    ∧ (Headers_get "Content-Length" (headers r) = None
       ↔ ∃ s, body r = Some (BodyString s)).
Proof.
  intros Hraw Hr.
  destruct (callEndpoint_legacy ASTRO_VERSION URL_parse mime_getType Buffer _ _ _ _ _ _ _ _ _ _ _ _ _ Hraw Hr)
    as (l & w2 & b & Hrun & _ & _ & Hheap & _).
  eexists l, w2, _. split; [exact Hrun|].
  rewrite Hheap, lookup_insert_eq. split; [reflexivity|].
  cbn [body headers]. rewrite Headers_get_legacy_content_length.
  destruct b as [s|bs]; simpl.
  - split; [discriminate|]. split; [discriminate|]. split; [by exists s|done].
  - split; [intros n Hn; injection Hn as <-; by exists bs|].
    split; [by intros bs' [= <-]|].
    split; [discriminate|]. by intros [s Hs].
Qed.

(** X10.  A response made by [ResponseWithEncoding] and returned by the
    handler keeps its marker, whatever the encoding; when the endpoint is
    server-rendered it is warned about exactly once, and otherwise not at
    all. *)
Theorem ResponseWithEncoding_through_callEndpoint
    mod_ env ctx onRequest w context l w1 b init encoding w0 wa :
  ResponseWithEncoding_new b init encoding w0 = Returned l wa →
  raw_result mod_ env ctx onRequest w = Returned (context, NativeResponse l) w1 →
  heap w1 !! l = heap wa !! l →
  ∃ w2 r',
    callEndpoint mod_ env ctx onRequest w = Returned l w2
    ∧ heap w2 !! l = Some r'
    ∧ Headers_get "X-Astro-Encoding" (headers r') = Some (encoding_name encoding)
    ∧ status r' = to_unsigned_short (default 200%Z (init_status init))
    ∧ body r' = b
    ∧ (isEndpointSSR env ctx = true →
       effects w2 = effects w1
                    ++ [Warn "ssr" ResponseWithEncoding_ignored; AttachCookies l])
    ∧ (isEndpointSSR env ctx = false →
       effects w2 = effects w1 ++ [AttachCookies l]).
Proof.
  intros Hnew Hraw Hsame.
  destruct (ResponseWithEncoding_new_object _ _ _ _ _ _ Hnew) as (r1 & Hr1 & Hobj).
  rewrite Hobj in Hsame.
  destruct (Response_new_returned _ _ _ Hr1) as (Hst & _ & Hb).
  destruct (callEndpoint_native ASTRO_VERSION URL_parse mime_getType Buffer _ _ _ _ _ _ _ _ _ _ _ _ _ Hraw Hsame)
    as (w2 & Hrun & Hheap & _ & _ & Heff).
  eexists w2, _. split; [exact Hrun|].
  rewrite Hheap, lookup_insert_eq. split; [reflexivity|].
  cbn [headers status body Response_with_headers].
  rewrite Headers_get_app_set_cookie_entries by done.
  rewrite Headers_get_set. split; [reflexivity|].
  split; [exact Hst|]. split; [exact Hb|].
  rewrite Heff. unfold native_warnings, isEndpointSSR.
  cbn [headers Response_with_headers]. rewrite Headers_get_set. simpl.
  rewrite encoding_name_truthy, andb_true_r.
  split; by intros ->.
Qed.

(** X11.  A response made by [context.redirect] and returned by the
    handler comes out with the status the constructor gave it, the
    Location the constructor stored (the path as a byte string, without
    surrounding whitespace) and no body; the cookies set before the
    redirect are its set-cookie values; and no warning is logged in any
    mode. *)
Theorem redirect_through_callEndpoint
    mod_ env ctx onRequest w context l w1 path status0 w0 wa :
  redirect path status0 w0 = Returned l wa →
  raw_result mod_ env ctx onRequest w = Returned (context, NativeResponse l) w1 →
  heap w1 !! l = heap wa !! l →
  ∃ w2 r' location,
    callEndpoint mod_ env ctx onRequest w = Returned l w2
    ∧ heap w2 !! l = Some r'
    ∧ to_ByteString path = Some location
    ∧ status r' = to_unsigned_short (or_number status0 302)
    ∧ status_in_range (status r') = true
    ∧ Headers_get "Location" (headers r') = Some (header_value_normalize location)
    ∧ body r' = None
    ∧ Headers_values "Set-Cookie" (headers r') = jar_entries w1 (cookies context)
    ∧ effects w2 = effects w1 ++ [AttachCookies l].
Proof.
  intros Hnew Hraw Hsame.
  destruct (redirect_object _ _ _ _ _ Hnew) as (location & Hloc & Hobj).
  rewrite Hobj in Hsame.
  destruct (callEndpoint_native ASTRO_VERSION URL_parse mime_getType Buffer _ _ _ _ _ _ _ _ _ _ _ _ _ Hraw Hsame)
    as (w2 & Hrun & Hheap & _ & _ & Heff).
  eexists w2, _, location. split; [exact Hrun|].
  rewrite Hheap, lookup_insert_eq. split; [reflexivity|].
  split; [exact Hloc|].
  cbn [headers status body]. split; [reflexivity|].
  split; [exact (redirect_status_in_range _ _ _ _ _ Hnew)|].
  rewrite Headers_get_app_set_cookie_entries by done.
  split; [reflexivity|]. split; [reflexivity|].
  rewrite Headers_values_app, Headers_values_set_cookie_entries.
  split; [reflexivity|].
  rewrite Heff. unfold native_warnings.
  by rewrite andb_false_r.
Qed.

(** X12.  For a legacy object whose body is an ASCII string and whose
    encoding is utf8, utf-8 or absent, the body of the response is the
    string's code units as bytes and [Content-Length] is the length of
    the string, with or without [Buffer]. *)
Theorem ascii_body_content_length mod_ env ctx onRequest w context o rd w1 s :
  raw_result mod_ env ctx onRequest w = Returned (context, LegacyObject o) w1 →
  rc_route ctx = Some rd →
  eo_body o = BodyStr s →
  Forall (λ c, (c < 128)%N) s →
  eo_encoding o = None ∨ eo_encoding o = Some utf8 ∨ eo_encoding o = Some utf_8 →
  ∃ l w2 r,
    callEndpoint mod_ env ctx onRequest w = Returned l w2
    ∧ heap w2 !! l = Some r
    ∧ body r = Some (BodyBytes (byte_of_N <$> s))
    ∧ Headers_get "Content-Length" (headers r) = Some (toString (length s)).
Proof.
  intros Hraw Hr Hbody Hascii Henc.
  destruct (callEndpoint_legacy ASTRO_VERSION URL_parse mime_getType Buffer _ _ _ _ _ _ _ _ _ _ _ _ _ Hraw Hr)
    as (l & w2 & b & Hrun & Hb & _ & Hheap & _).
  eexists l, w2, _. split; [exact Hrun|].
  rewrite Hheap, lookup_insert_eq. split; [reflexivity|].
  cbn [body headers]. rewrite Headers_get_legacy_content_length.
  assert (b = BodyBytes (byte_of_N <$> s)) as ->.
  { subst b. unfold resolve_body. rewrite Hbody.
    rewrite <- (utf8_encode_ascii s Hascii).
    destruct Buffer as [transcode|]; simpl;
      by destruct Henc as [-> | [-> | ->]]. }
  simpl. by rewrite length_fmap.
Qed.

End Coverage.

Section ContextCoverage.

Variable ASTRO_VERSION : string.
Variable URL_parse : string → option URL.
Variable ClientAddressNotAvailable_message : string → string.
Variable StaticClientAddressNotAvailable_message : string.
Variable LocalsNotAnObject_message : string.

Local Abbreviation createAPIContext := (createAPIContext ASTRO_VERSION URL_parse).
Local Abbreviation clientAddress :=
  (clientAddress ClientAddressNotAvailable_message
     StaticClientAddressNotAvailable_message).
Local Abbreviation locals_set := (locals_set LocalsNotAnObject_message).

(** X4.  [createAPIContext] returns exactly when [site] is absent, empty
    or parses as a URL, and the URL of the request parses.  The context
    then has no [site] for an absent or empty one and the parsed URL
    otherwise, the parsed URL of the request, the generator string with
    the version, and a cookie jar that did not exist before and has no
    entries; the other jars keep theirs, and the request's slots, the
    responses and the log are untouched. *)
Theorem createAPIContext_succeeds_iff request0 params0 site0 props0 adapterName0 w :
  ((∃ context w0,
      createAPIContext request0 params0 site0 props0 adapterName0 w
      = Returned context w0)
   ↔ (∀ s, site0 = Some s → truthy_string s = true → is_Some (URL_parse s))
     ∧ is_Some (URL_parse (request_url request0)))
  ∧ ∀ context w0,
      createAPIContext request0 params0 site0 props0 adapterName0 w
      = Returned context w0 →
      (truthy_opt_string site0 = false → site context = None)
      ∧ (∀ s, site0 = Some s → truthy_string s = true →
           is_Some (site context) ∧ site context = URL_parse s)
      ∧ URL_parse (request_url request0) = Some (url context)
      ∧ generator context = "Astro v" +:+ ASTRO_VERSION
      ∧ jars w !! cookies context = None
      ∧ jar_entries w0 (cookies context) = []
      ∧ (∀ c, c ≠ cookies context → jars w0 !! c = jars w !! c)
      ∧ slots w0 = slots w
      ∧ heap w0 = heap w
      ∧ effects w0 = effects w.
Proof.
  unfold_createAPIContext. unfold AstroCookies_new, URL_new. unfold_M.
  assert (∀ c, c ≠ fresh (dom (jars w)) →
            <[fresh (dom (jars w)) := @nil string]> (jars w) !! c = jars w !! c)
    as Hother by (intros c Hc; by rewrite lookup_insert_ne).
  assert (jars w !! fresh (dom (jars w)) = None) as Hfresh
    by apply not_elem_of_dom, is_fresh.
  assert (jar_entries (set_jars <[fresh (dom (jars w)) := []]> w)
            (fresh (dom (jars w))) = []) as Hempty
    by (unfold jar_entries; simpl; by rewrite lookup_insert_eq).
  destruct (URL_parse (request_url request0)) as [u'|] eqn:Hu; simpl.
  - destruct site0 as [s|]; [destruct (truthy_string s) eqn:Ht|];
      [destruct (URL_parse s) as [u|] eqn:Hs|..]; simpl.
    + split.
      * split; [intros _; split; [intros s' [= <-] _; by eexists|by eexists]|].
        intros _. by eexists _, _.
      * intros context w0 [= <- <-]. simpl. split; [rewrite Ht; discriminate|].
        split; [intros s' [= <-] _; split; [by eexists|done]|]. done.
    + split.
      * split; [intros (context & w0 & H); discriminate H|].
        intros [Hsite _]. destruct (Hsite s eq_refl Ht) as [? Hx]. rewrite Hs in Hx. discriminate Hx.
      * discriminate.
    + split.
      * split; [intros _; split; [intros s' [= <-] Ht'; congruence|by eexists]|].
        intros _. by eexists _, _.
      * intros context w0 [= <- <-]. simpl. split; [done|].
        split; [intros s' [= <-] Ht'; congruence|]. done.
    + split.
      * split; [intros _; split; [discriminate|by eexists]|].
        intros _. by eexists _, _.
      * intros context w0 [= <- <-]. simpl. split; [done|].
        split; [discriminate|]. done.
  - split.
    + split; [|intros [_ [? ?]]; discriminate].
      intros (context & w0 & H). exfalso.
      destruct site0 as [s|]; [destruct (truthy_string s)|];
        [destruct (URL_parse s)|..]; discriminate H.
    + intros context w0 H. exfalso.
      destruct site0 as [s|]; [destruct (truthy_string s)|];
        [destruct (URL_parse s)|..]; discriminate H.
Qed.

(** X5.  A successful assignment to [locals] is seen only through the
    contexts of that request: the [locals] of every other request read as
    before, and so does [clientAddress] on every context, whether it
    returned a value or threw. *)
Theorem locals_set_frame context val w w' :
  locals_set context val w = Returned tt w' →
  (∀ other v,
     request_id (request other) ≠ request_id (request context) →
     locals_get other w = Returned v w →
     locals_get other w' = Returned v w')
  ∧ (∀ any v, clientAddress any w = Returned v w →
       clientAddress any w' = Returned v w')
  ∧ (∀ any e, clientAddress any w = Threw e w →
       clientAddress any w' = Threw e w').
Proof.
  unfold_locals_set. unfold locals_get, Reflect_set, Reflect_get. unfold_M.
  case_bool_decide as Hty; [discriminate|]. intros Hset. injection Hset as <-.
  assert (∀ any, slots (set_slots <[(request_id (request context), clientLocalsSymbol) := val]> w)
                   !! (request_id (request any), clientAddressSymbol)
                 = slots w !! (request_id (request any), clientAddressSymbol)) as Hca.
  { intros any. simpl. apply lookup_insert_ne. intros Hk. discriminate Hk. }
  split; [|split].
  - intros other v Hne Hget. injection Hget as <-. simpl.
    rewrite lookup_insert_ne; [done|]. intros [= Hid]. by apply Hne.
  - intros any v. unfold_clientAddress. unfold has_property, Reflect_get. unfold_M.
    rewrite Hca.
    destruct (slots w !! (request_id (request any), clientAddressSymbol)) eqn:Hs.
    + rewrite bool_decide_eq_true_2 by eauto. simpl. rewrite Hca, !Hs. simpl.
      by intros [= <-].
    + rewrite bool_decide_eq_false_2 by (by intros [? ?]). simpl.
      destruct (adapterName any) as [name|]; [destruct (truthy_string name)|];
        discriminate.
  - intros any e. unfold_clientAddress. unfold has_property, Reflect_get. unfold_M.
    rewrite Hca.
    destruct (slots w !! (request_id (request any), clientAddressSymbol)) eqn:Hs.
    + rewrite bool_decide_eq_true_2 by eauto. simpl. discriminate.
    + rewrite bool_decide_eq_false_2 by (by intros [? ?]). simpl.
      destruct (adapterName any) as [name|]; [destruct (truthy_string name)|];
        by intros [= <-].
Qed.

(** X6.  Before any assignment [locals] reads as undefined.  Of two
    successive assignments of objects the later one is read; an assignment
    that is rejected leaves the earlier value in place. *)
Theorem locals_last_write_wins context v1 v2 rejected w :
  typeof v1 = "object" →
  typeof v2 = "object" →
  typeof rejected ≠ "object" →
  (slots w !! (request_id (request context), clientLocalsSymbol) = None →
   locals_get context w = Returned JsUndefined w)
  ∧ ∃ w1 w2,
      locals_set context v1 w = Returned tt w1
      ∧ locals_set context rejected w1
        = Threw (AstroError LocalsNotAnObject LocalsNotAnObject_message) w1
      ∧ locals_get context w1 = Returned v1 w1
      ∧ locals_set context v2 w1 = Returned tt w2
      ∧ locals_get context w2 = Returned v2 w2.
Proof.
  intros H1 H2 Hr.
  unfold_locals_set. unfold locals_get, Reflect_set, Reflect_get. unfold_M.
  split; [by intros ->|].
  rewrite (bool_decide_eq_false_2 (typeof v1 ≠ "object")) by (by intros ?).
  rewrite (bool_decide_eq_false_2 (typeof v2 ≠ "object")) by (by intros ?).
  rewrite (bool_decide_eq_true_2 (typeof rejected ≠ "object")) by done.
  eexists _, _. split; [reflexivity|]. split; [reflexivity|].
  split; [simpl; by rewrite lookup_insert_eq|].
  split; [reflexivity|]. simpl. by rewrite lookup_insert_eq.
Qed.

End ContextCoverage.

(** ** The further properties at sample inputs *)

(** X1 with a site that has no scheme. *)
Lemma callEndpoint_propagates_errors_witness :
  env_site malformed_site_env = Some "example.com"
  ∧ sample_URL_parse "example.com" = None
  ∧ ∃ w',
      sample_callEndpoint None (native_handler no_init) malformed_site_env
        (sample_ctx (sample_route "/api")) None empty_world
      = Threw (TypeError "Invalid URL") w'
      ∧ heap w' = ∅
      ∧ effects w' = [].
Proof.
  split; [reflexivity|]. split; [reflexivity|].
  destruct (callEndpoint_propagates_errors "2.0.0" sample_URL_parse sample_mime None
              SampleHandler SampleMiddleware sample_renderEndpoint sample_callMiddleware
              (native_handler no_init) malformed_site_env
              (sample_ctx (sample_route "/api")) None empty_world)
    as (_ & Hsite & _).
  destruct (Hsite "example.com" eq_refl eq_refl eq_refl)
    as (w' & Hrun & _ & Hheap & Heff).
  exists w'. split; [exact Hrun|]. split; [exact Hheap|exact Heff].
Defined.

(** X4 with an empty site, and with a request whose URL has no scheme. *)
Lemma createAPIContext_succeeds_iff_witness :
  (∃ context w0,
     createAPIContext "2.0.0" sample_URL_parse sample_request ∅ (Some "") ∅ None
       empty_world = Returned context w0
     ∧ site context = None
     ∧ url context = URL_with_href "https://example.com/a.txt"
     ∧ generator context = "Astro v2.0.0"
     ∧ jar_entries w0 (cookies context) = [])
  ∧ ¬ ∃ context w0,
        createAPIContext "2.0.0" sample_URL_parse
          {| request_id := 9; request_url := "/a.txt" |} ∅ None ∅ None empty_world
        = Returned context w0.
Proof.
  split.
  - destruct (createAPIContext_succeeds_iff "2.0.0" sample_URL_parse
                sample_request ∅ (Some "") ∅ None empty_world) as [Hiff Hfields].
    destruct (proj2 Hiff) as (context & w0 & Hc).
    { split; [intros s [= <-]; discriminate|by eexists]. }
    destruct (Hfields context w0 Hc)
      as (Hsite & _ & Hurl & Hgen & _ & Hjar & _).
    exists context, w0. split; [exact Hc|]. split; [exact (Hsite eq_refl)|].
    split; [|split; [exact Hgen|exact Hjar]].
    assert (Some (URL_with_href "https://example.com/a.txt") = Some (url context))
      as Hu by (rewrite <- Hurl; reflexivity).
    by injection Hu as <-.
  - intros Hex.
    destruct (createAPIContext_succeeds_iff "2.0.0" sample_URL_parse
                {| request_id := 9; request_url := "/a.txt" |} ∅ None ∅ None
                empty_world) as [Hiff _].
    destruct (proj1 Hiff Hex) as [_ [u Hu]]. discriminate Hu.
Defined.

(** X2 with a middleware that redirects to /login. *)
Lemma short_circuit_ignores_handler_witness :
  (∀ context next next' w0,
     sample_callMiddleware (env_logging (sample_env true)) short_circuit_middleware
       context next w0
     = sample_callMiddleware (env_logging (sample_env true)) short_circuit_middleware
         context next' w0)
  ∧ sample_callEndpoint None (legacy_handler hello_utf8) (sample_env true)
      (sample_ctx None) (Some short_circuit_middleware) empty_world
    = sample_callEndpoint None (native_handler no_init) (sample_env true)
        (sample_ctx None) (Some short_circuit_middleware) empty_world.
Proof.
  assert (∀ context next next' w0,
            sample_callMiddleware (env_logging (sample_env true)) short_circuit_middleware
              context next w0
            = sample_callMiddleware (env_logging (sample_env true)) short_circuit_middleware
                context next' w0) as H by reflexivity.
  split; [exact H|].
  exact (short_circuit_ignores_handler "2.0.0" sample_URL_parse sample_mime None
           SampleHandler SampleMiddleware sample_renderEndpoint sample_callMiddleware
           (legacy_handler hello_utf8) (native_handler no_init) (sample_env true)
           (sample_ctx None) short_circuit_middleware empty_world H).
Defined.


(** X5 with the locals of request 7 assigned while request 8 has locals
    and request 7 a client address. *)
Lemma locals_set_frame_witness :
  locals_set "locals" (sample_context None) (JsObject 3) busy_world
  = Returned tt (set_slots <[(7, clientLocalsSymbol) := JsObject 3]> busy_world)
  ∧ locals_get other_context
      (set_slots <[(7, clientLocalsSymbol) := JsObject 3]> busy_world)
    = Returned (JsObject 1)
        (set_slots <[(7, clientLocalsSymbol) := JsObject 3]> busy_world)
  ∧ clientAddress sample_message "static" (sample_context None)
      (set_slots <[(7, clientLocalsSymbol) := JsObject 3]> busy_world)
    = Returned (JsString "203.0.113.9")
        (set_slots <[(7, clientLocalsSymbol) := JsObject 3]> busy_world)
  ∧ clientAddress sample_message "static" other_context
      (set_slots <[(7, clientLocalsSymbol) := JsObject 3]> busy_world)
    = Threw (AstroError ClientAddressNotAvailable (sample_message "@astrojs/node"))
        (set_slots <[(7, clientLocalsSymbol) := JsObject 3]> busy_world).
Proof.
  assert (locals_set "locals" (sample_context None) (JsObject 3) busy_world
          = Returned tt (set_slots <[(7, clientLocalsSymbol) := JsObject 3]> busy_world))
    as H by reflexivity.
  split; [exact H|].
  destruct (locals_set_frame sample_message "static" "locals"
              (sample_context None) (JsObject 3) busy_world _ H)
    as (Hother & Hret & Hthrow).
  split; [apply (Hother other_context (JsObject 1)); [discriminate|reflexivity]|].
  split; [apply (Hret (sample_context None) (JsString "203.0.113.9")); reflexivity|].
  apply (Hthrow other_context); reflexivity.
Defined.

(** X6 with two objects and a string. *)
Lemma locals_last_write_wins_witness :
  typeof (JsObject 1) = "object"
  ∧ typeof (JsObject 2) = "object"
  ∧ typeof (JsString "x") ≠ "object"
  ∧ locals_get (sample_context None) empty_world = Returned JsUndefined empty_world
  ∧ ∃ w1 w2,
      locals_set "locals" (sample_context None) (JsObject 1) empty_world = Returned tt w1
      ∧ locals_set "locals" (sample_context None) (JsString "x") w1
        = Threw (AstroError LocalsNotAnObject "locals") w1
      ∧ locals_get (sample_context None) w1 = Returned (JsObject 1) w1
      ∧ locals_set "locals" (sample_context None) (JsObject 2) w1 = Returned tt w2
      ∧ locals_get (sample_context None) w2 = Returned (JsObject 2) w2.
Proof.
  assert (typeof (JsString "x") ≠ "object") as Hx by discriminate.
  split; [reflexivity|]. split; [reflexivity|]. split; [exact Hx|].
  destruct (locals_last_write_wins "locals" (sample_context None)
              (JsObject 1) (JsObject 2) (JsString "x") empty_world eq_refl eq_refl Hx)
    as (Hunset & Hrest).
  split; [exact (Hunset eq_refl)|exact Hrest].
Defined.

(** X7 on a native response in a world where request 8 has locals. *)
Lemma callEndpoint_frame_witness :
  sample_raw_result (native_handler marker_init) (sample_env true)
    (sample_ctx None) None busy_world
  = Returned (sample_context None, NativeResponse 0)
      (world_of (sample_raw_result (native_handler marker_init) (sample_env true)
                   (sample_ctx None) None busy_world))
  ∧ sample_callEndpoint None (native_handler marker_init) (sample_env true)
      (sample_ctx None) None busy_world
    = Returned 0
        (world_of (sample_callEndpoint None (native_handler marker_init) (sample_env true)
                     (sample_ctx None) None busy_world))
  ∧ slots (world_of (sample_callEndpoint None (native_handler marker_init)
                       (sample_env true) (sample_ctx None) None busy_world))
    = slots busy_world
  ∧ jars (world_of (sample_callEndpoint None (native_handler marker_init)
                      (sample_env true) (sample_ctx None) None busy_world))
    = jars (world_of (sample_raw_result (native_handler marker_init) (sample_env true)
                        (sample_ctx None) None busy_world)).
Proof.
  assert (sample_raw_result (native_handler marker_init) (sample_env true)
            (sample_ctx None) None busy_world
          = Returned (sample_context None, NativeResponse 0)
              (world_of (sample_raw_result (native_handler marker_init) (sample_env true)
                           (sample_ctx None) None busy_world))) as H
    by (vm_compute; reflexivity).
  assert (sample_callEndpoint None (native_handler marker_init) (sample_env true)
            (sample_ctx None) None busy_world
          = Returned 0
              (world_of (sample_callEndpoint None (native_handler marker_init)
                           (sample_env true) (sample_ctx None) None busy_world))) as Hrun
    by (vm_compute; reflexivity).
  split; [exact H|]. split; [exact Hrun|].
  destruct (callEndpoint_frame "2.0.0" sample_URL_parse sample_mime None
              SampleHandler SampleMiddleware sample_renderEndpoint sample_callMiddleware
              (native_handler marker_init) (sample_env true) (sample_ctx None) None
              busy_world (sample_context None) (NativeResponse 0) _ 0 _ H Hrun)
    as (Hslots & Hjars & _).
  split; [|exact Hjars]. rewrite Hslots. vm_compute; reflexivity.
Defined.

(** X9 on a byte body of two bytes. *)
Lemma content_length_matches_body_witness :
  sample_raw_result (legacy_handler base64_with_headers) (sample_env false)
    (sample_ctx (sample_route "/a.bin")) None empty_world
  = Returned (sample_context None, LegacyObject base64_with_headers)
      (world_of (sample_raw_result (legacy_handler base64_with_headers) (sample_env false)
                   (sample_ctx (sample_route "/a.bin")) None empty_world))
  ∧ rc_route (sample_ctx (sample_route "/a.bin"))
    = Some {| route := "/a.bin"; prerender := false |}
  ∧ ∃ l w2 r,
      sample_callEndpoint None (legacy_handler base64_with_headers) (sample_env false)
        (sample_ctx (sample_route "/a.bin")) None empty_world = Returned l w2
      ∧ heap w2 !! l = Some r
      ∧ body r = Some (BodyBytes [Byte.x00; Byte.xff])
      ∧ Headers_get "Content-Length" (headers r) = Some "2".
Proof.
  assert (sample_raw_result (legacy_handler base64_with_headers) (sample_env false)
            (sample_ctx (sample_route "/a.bin")) None empty_world
          = Returned (sample_context None, LegacyObject base64_with_headers)
              (world_of (sample_raw_result (legacy_handler base64_with_headers)
                           (sample_env false) (sample_ctx (sample_route "/a.bin")) None
                           empty_world))) as H
    by (vm_compute; reflexivity).
  split; [exact H|]. split; [reflexivity|].
  destruct (content_length_matches_body "2.0.0" sample_URL_parse sample_mime None
              SampleHandler SampleMiddleware sample_renderEndpoint sample_callMiddleware
              (legacy_handler base64_with_headers) (sample_env false)
              (sample_ctx (sample_route "/a.bin")) None empty_world
              (sample_context None) base64_with_headers
              {| route := "/a.bin"; prerender := false |} _ H eq_refl)
    as (l & w2 & r & Hrun & Hh & _ & Hbytes & _).
  assert (sample_callEndpoint None (legacy_handler base64_with_headers) (sample_env false)
            (sample_ctx (sample_route "/a.bin")) None empty_world
          = Returned 0
              (world_of (sample_callEndpoint None (legacy_handler base64_with_headers)
                           (sample_env false) (sample_ctx (sample_route "/a.bin")) None
                           empty_world))) as Hrun'
    by (vm_compute; reflexivity).
  assert (Returned l w2
          = Returned 0
              (world_of (sample_callEndpoint None (legacy_handler base64_with_headers)
                           (sample_env false) (sample_ctx (sample_route "/a.bin")) None
                           empty_world))) as Heq
    by (rewrite <- Hrun; exact Hrun').
  injection Heq as -> ->.
  assert (body r = Some (BodyBytes [Byte.x00; Byte.xff])) as Hb.
  { assert (Some r
            = Some {| status := 200%N;
                      statusText := "";
                      headers := [("content-type", "text/plain;charset=utf-8");
                                  ("x-astro-encoding", "base64");
                                  ("content-length", "2");
                                  ("set-cookie", "a=1"); ("set-cookie", "b=2")];
                      body := Some (BodyBytes [Byte.x00; Byte.xff]) |}) as Hr
      by (rewrite <- Hh; vm_compute; reflexivity).
    by injection Hr as ->. }
  eexists 0, _, r. split; [exact Hrun'|]. split; [exact Hh|].
  split; [exact Hb|]. exact (Hbytes _ Hb).
Defined.

(** X10 with the encoding latin1 on a server-rendered endpoint. *)
Lemma ResponseWithEncoding_through_callEndpoint_witness :
  ResponseWithEncoding_new (Some (BodyString (code_units_of "ok"))) marker_init latin1
    world_with_jar
  = Returned 0
      (world_of (ResponseWithEncoding_new (Some (BodyString (code_units_of "ok")))
                   marker_init latin1 world_with_jar))
  ∧ sample_raw_result
      (encoded_handler (Some (BodyString (code_units_of "ok"))) marker_init latin1)
      (sample_env true) (sample_ctx (sample_route "/api")) None empty_world
    = Returned (sample_context None, NativeResponse 0)
        (world_of (ResponseWithEncoding_new (Some (BodyString (code_units_of "ok")))
                     marker_init latin1 world_with_jar))
  ∧ ∃ w2 r',
      sample_callEndpoint None
        (encoded_handler (Some (BodyString (code_units_of "ok"))) marker_init latin1)
        (sample_env true) (sample_ctx (sample_route "/api")) None empty_world
      = Returned 0 w2
      ∧ heap w2 !! 0 = Some r'
      ∧ Headers_get "X-Astro-Encoding" (headers r') = Some "latin1"
      ∧ status r' = 201%N
      ∧ effects w2 = [Warn "ssr" ResponseWithEncoding_ignored; AttachCookies 0].
Proof.
  assert (ResponseWithEncoding_new (Some (BodyString (code_units_of "ok"))) marker_init
            latin1 world_with_jar
          = Returned 0
              (world_of (ResponseWithEncoding_new (Some (BodyString (code_units_of "ok")))
                           marker_init latin1 world_with_jar))) as Hnew
    by (vm_compute; reflexivity).
  assert (sample_raw_result
            (encoded_handler (Some (BodyString (code_units_of "ok"))) marker_init latin1)
            (sample_env true) (sample_ctx (sample_route "/api")) None empty_world
          = Returned (sample_context None, NativeResponse 0)
              (world_of (ResponseWithEncoding_new (Some (BodyString (code_units_of "ok")))
                           marker_init latin1 world_with_jar))) as H
    by (vm_compute; reflexivity).
  split; [exact Hnew|]. split; [exact H|].
  destruct (ResponseWithEncoding_through_callEndpoint "2.0.0" sample_URL_parse sample_mime None
              SampleHandler SampleMiddleware sample_renderEndpoint sample_callMiddleware
              (encoded_handler (Some (BodyString (code_units_of "ok"))) marker_init latin1)
              (sample_env true) (sample_ctx (sample_route "/api")) None empty_world
              (sample_context None) 0 _ _ _ _ _ _ Hnew H eq_refl)
    as (w2 & r' & Hrun & Hh & Hm & Hst & _ & Hssr & _).
  exists w2, r'. split; [exact Hrun|]. split; [exact Hh|]. split; [exact Hm|].
  split; [exact Hst|]. exact (Hssr eq_refl).
Defined.

(** X11 with a redirect to /next under status 307. *)
Lemma redirect_through_callEndpoint_witness :
  redirect (code_units_of "/next") (Some 307%Z)
    (world_of (sample_cookies_set 0 "seen=1" world_with_jar))
  = Returned 0
      (world_of (redirect (code_units_of "/next") (Some 307%Z)
                   (world_of (sample_cookies_set 0 "seen=1" world_with_jar))))
  ∧ sample_raw_result (redirect_handler (code_units_of "/next") (Some 307%Z))
      (sample_env true) (sample_ctx (sample_route "/api")) None empty_world
    = Returned (sample_context None, NativeResponse 0)
        (world_of (redirect (code_units_of "/next") (Some 307%Z)
                     (world_of (sample_cookies_set 0 "seen=1" world_with_jar))))
  ∧ ∃ w2 r',
      sample_callEndpoint None (redirect_handler (code_units_of "/next") (Some 307%Z))
        (sample_env true) (sample_ctx (sample_route "/api")) None empty_world
      = Returned 0 w2
      ∧ heap w2 !! 0 = Some r'
      ∧ status r' = 307%N
      ∧ Headers_get "Location" (headers r') = Some "/next"
      ∧ Headers_values "Set-Cookie" (headers r') = ["seen=1"]
      ∧ effects w2 = [AttachCookies 0].
Proof.
  assert (redirect (code_units_of "/next") (Some 307%Z)
            (world_of (sample_cookies_set 0 "seen=1" world_with_jar))
          = Returned 0
              (world_of (redirect (code_units_of "/next") (Some 307%Z)
                           (world_of (sample_cookies_set 0 "seen=1" world_with_jar)))))
    as Hnew by (vm_compute; reflexivity).
  assert (sample_raw_result (redirect_handler (code_units_of "/next") (Some 307%Z))
            (sample_env true) (sample_ctx (sample_route "/api")) None empty_world
          = Returned (sample_context None, NativeResponse 0)
              (world_of (redirect (code_units_of "/next") (Some 307%Z)
                           (world_of (sample_cookies_set 0 "seen=1" world_with_jar)))))
    as H by (vm_compute; reflexivity).
  split; [exact Hnew|]. split; [exact H|].
  destruct (redirect_through_callEndpoint "2.0.0" sample_URL_parse sample_mime None
              SampleHandler SampleMiddleware sample_renderEndpoint sample_callMiddleware
              (redirect_handler (code_units_of "/next") (Some 307%Z))
              (sample_env true) (sample_ctx (sample_route "/api")) None empty_world
              (sample_context None) 0 _ _ _ _ _ Hnew H eq_refl)
    as (w2 & r' & location & Hrun & Hh & Hbytes & Hst & _ & Hloc & _ & Hsc & Heff).
  assert (location = "/next") as -> by (by injection Hbytes as <-).
  exists w2, r'. split; [exact Hrun|]. split; [exact Hh|]. split; [exact Hst|].
  split; [exact Hloc|]. split; [exact Hsc|exact Heff].
Defined.

(** X12 on the body "GET /a.txt" without a declared encoding. *)
Lemma ascii_body_content_length_witness :
  sample_raw_result (legacy_handler ascii_object) (sample_env false)
    (sample_ctx (sample_route "/a.txt")) None empty_world
  = Returned (sample_context None, LegacyObject ascii_object)
      (world_of (sample_raw_result (legacy_handler ascii_object) (sample_env false)
                   (sample_ctx (sample_route "/a.txt")) None empty_world))
  ∧ rc_route (sample_ctx (sample_route "/a.txt"))
    = Some {| route := "/a.txt"; prerender := false |}
  ∧ eo_body ascii_object = BodyStr (code_units_of "GET /a.txt")
  ∧ Forall (λ c, (c < 128)%N) (code_units_of "GET /a.txt")
  ∧ eo_encoding ascii_object = None
  ∧ ∃ l w2 r,
      sample_callEndpoint (Some (λ _ _, [])) (legacy_handler ascii_object)
        (sample_env false) (sample_ctx (sample_route "/a.txt")) None empty_world
      = Returned l w2
      ∧ heap w2 !! l = Some r
      ∧ Headers_get "Content-Length" (headers r) = Some "10".
Proof.
  assert (sample_raw_result (legacy_handler ascii_object) (sample_env false)
            (sample_ctx (sample_route "/a.txt")) None empty_world
          = Returned (sample_context None, LegacyObject ascii_object)
              (world_of (sample_raw_result (legacy_handler ascii_object) (sample_env false)
                           (sample_ctx (sample_route "/a.txt")) None empty_world))) as H
    by (vm_compute; reflexivity).
  assert (Forall (λ c, (c < 128)%N) (code_units_of "GET /a.txt")) as Hascii
    by (repeat (constructor; [reflexivity|]); constructor).
  split; [exact H|]. split; [reflexivity|]. split; [reflexivity|].
  split; [exact Hascii|]. split; [reflexivity|].
  destruct (ascii_body_content_length "2.0.0" sample_URL_parse sample_mime (Some (λ _ _, []))
              SampleHandler SampleMiddleware sample_renderEndpoint sample_callMiddleware
              (legacy_handler ascii_object) (sample_env false)
              (sample_ctx (sample_route "/a.txt")) None empty_world
              (sample_context None) ascii_object
              {| route := "/a.txt"; prerender := false |} _
              (code_units_of "GET /a.txt") H eq_refl eq_refl Hascii (or_introl eq_refl))
    as (l & w2 & r & Hrun & Hh & _ & Hcl).
  exists l, w2, r. split; [exact Hrun|]. split; [exact Hh|]. exact Hcl.
Defined.

Section Pipeline.

Variable ASTRO_VERSION : string.
Variable URL_parse : string → option URL.
Variable ClientAddressNotAvailable_message : string → string.
Variable StaticClientAddressNotAvailable_message : string.
Variable mime_getType : string → option string.
Variable Buffer : option (BufferEncoding → CodeUnits → list Byte.byte).
Variable EndpointHandler : Type.
Variable MiddlewareEndpointHandler : Type.
Variable renderEndpoint :
  EndpointHandler → APIContext → bool → LogOptions → M RawResult.
Variable callMiddleware :
  LogOptions → MiddlewareEndpointHandler → APIContext → M RawResult → M RawResult.

Local Abbreviation callEndpoint :=
  (callEndpoint ASTRO_VERSION URL_parse mime_getType Buffer EndpointHandler
     MiddlewareEndpointHandler renderEndpoint callMiddleware).
Local Abbreviation clientAddress :=
  (clientAddress ClientAddressNotAvailable_message
     StaticClientAddressNotAvailable_message).

(** X13.  The context [callEndpoint] makes is bound to the request of the
    render context and to the adapter name of the environment: when the
    context was made, the handler starts by reading [clientAddress], the
    request carries no marker and there is no middleware, [callEndpoint]
    throws the error of the getter, chosen by [env.adapterName], having
    logged nothing and touched neither a response nor the request's
    slots. *)
Theorem clientAddress_error_reaches_caller mod_ env ctx w k context w0 :
  createAPIContext ASTRO_VERSION URL_parse (rc_request ctx) (rc_params ctx)
    (env_site env) (rc_props ctx) (env_adapterName env) w = Returned context w0 →
  (∀ context w0,
     renderEndpoint mod_ context (env_ssr env) (env_logging env) w0
     = (v ← clientAddress context; k context v) w0) →
  slots w !! (request_id (rc_request ctx), clientAddressSymbol) = None →
  heap w0 = heap w
  ∧ effects w0 = effects w
  ∧ slots w0 = slots w
  ∧ (env_adapterName env = None ∨ env_adapterName env = Some "" →
     callEndpoint mod_ env ctx None w
     = Threw (AstroError StaticClientAddressNotAvailable
                StaticClientAddressNotAvailable_message) w0)
  ∧ (∀ name, env_adapterName env = Some name → name ≠ "" →
     callEndpoint mod_ env ctx None w
     = Threw (AstroError ClientAddressNotAvailable
                (ClientAddressNotAvailable_message name)) w0).
Proof.
  intros Hc Hhandler Hslot.
  destruct (createAPIContext_returned _ _ _ _ _ _ _ _ _ _ Hc)
    as (Hw0 & _ & Hreq & _ & _ & Hname).
  assert (slots w0 = slots w) as Hslots by (by rewrite Hw0).
  split; [by rewrite Hw0|]. split; [by rewrite Hw0|]. split; [exact Hslots|].
  assert (∀ e, clientAddress context w0 = Threw e w0 →
            callEndpoint mod_ env ctx None w = Threw e w0) as Hrun.
  { intros e He. unfold_callEndpoint. unfold_raw_result. unfold_M.
    rewrite Hc, Hhandler. unfold_M. by rewrite He. }
  split.
  - intros Hn. apply Hrun. unfold_clientAddress. unfold has_property. unfold_M.
    rewrite Hreq, Hname, Hslots, Hslot.
    rewrite bool_decide_eq_false_2 by (by intros [? ?]). simpl.
    by destruct Hn as [-> | ->].
  - intros name Hn Hne. apply Hrun. unfold_clientAddress. unfold has_property.
    unfold_M. rewrite Hreq, Hname, Hslots, Hslot.
    rewrite bool_decide_eq_false_2 by (by intros [? ?]). simpl.
    rewrite Hn. by destruct name.
Qed.

End Pipeline.

(** X13 with a handler that echoes the client address, under the adapter
    @astrojs/node. *)
Lemma clientAddress_error_reaches_caller_witness :
  createAPIContext "2.0.0" sample_URL_parse sample_request ∅ None ∅
    (Some "@astrojs/node") empty_world
  = Returned (sample_context (Some "@astrojs/node")) world_with_jar
  ∧ (∀ context w0,
       sample_renderEndpoint address_handler context (env_ssr node_env)
         (env_logging node_env) w0
       = (v ← clientAddress sample_message "static" context; echo_address context v) w0)
  ∧ slots empty_world !! (request_id (rc_request (sample_ctx None)), clientAddressSymbol)
    = None
  ∧ effects world_with_jar = []
  ∧ sample_callEndpoint None address_handler node_env (sample_ctx None) None
      empty_world
    = Threw (AstroError ClientAddressNotAvailable (sample_message "@astrojs/node"))
        world_with_jar.
Proof.
  assert (createAPIContext "2.0.0" sample_URL_parse sample_request ∅ None ∅
            (Some "@astrojs/node") empty_world
          = Returned (sample_context (Some "@astrojs/node")) world_with_jar) as Hc
    by (vm_compute; reflexivity).
  assert (∀ context w0,
            sample_renderEndpoint address_handler context (env_ssr node_env)
              (env_logging node_env) w0
            = (v ← clientAddress sample_message "static" context;
               echo_address context v) w0) as Hh by reflexivity.
  split; [exact Hc|]. split; [exact Hh|]. split; [reflexivity|].
  destruct (clientAddress_error_reaches_caller "2.0.0" sample_URL_parse sample_message
              "static" sample_mime None SampleHandler SampleMiddleware
              sample_renderEndpoint sample_callMiddleware address_handler
              node_env (sample_ctx None) empty_world echo_address _ _ Hc Hh eq_refl)
    as (_ & Heff & _ & _ & Hnamed).
  split; [exact Heff|].
  exact (Hnamed "@astrojs/node" eq_refl ltac:(discriminate)).
Defined.
